(** * aiovmmanager: the VMmanager 6 API sessions, embedded and verified

    A shallow embedding of [aiovmmanager/base.py] and [aiovmmanager/vm6.py].

    Conventions of the embedding:
    - a Python [str] is a Rocq [string], read as the UTF-8 bytes of the text
      (this is the form [urllib.parse.quote] works on);
    - a JSON value, and any Python value handed through keyword arguments, is
      a [pyval]; a [dict] is an association list in insertion order;
    - a coroutine is a function on an explicit [State] (the session object and
      the outside world) that returns a value or raises, see [M];
    - the aiohttp client and the backend behind it are the environment: the
      backend is a parameter of the development, the client methods used by
      the source ([ClientSession], [close], [raise_for_status], [json]) are
      written out after aiohttp. *)

From Stdlib Require Import ZArith NArith List String Ascii Bool Lia.
From Stdlib Require Import DecimalString.
From Stdlib Require DecimalPos DecimalZ.
Import ListNotations.

Local Open Scope string_scope.
Local Open Scope Z_scope.

(** ** Python values *)

Set Warnings "-register-all".

Inductive pyval : Type :=
| PNone
| PBool (b : bool)
| PInt (z : Z)
| PStr (s : string)
| PList (l : list pyval)
| PDict (d : list (string * pyval)).

(** [str(n)] for an [int]. *)
Definition str_of_int (z : Z) : string := NilZero.string_of_int (Z.to_int z).

(** Truth value of an [Optional[int]], as tested by [while attempts:] and
    [if not attempts:]. *)
Definition truthy_int (a : option Z) : bool :=
  match a with
  | None => false
  | Some z => negb (z =? 0)
  end.

(** ** urllib.parse: quote, quote_plus, urlencode *)

Module Urllib.

Definition in_range (lo hi : N) (c : ascii) : bool :=
  let n := N_of_ascii c in ((lo <=? n) && (n <=? hi))%N.

(** [_ALWAYS_SAFE]: ASCII letters, digits and [_.-~]. *)
Definition always_safe (c : ascii) : bool :=
  in_range 65 90 c || in_range 97 122 c || in_range 48 57 c
  || Ascii.eqb c "_" || Ascii.eqb c "." || Ascii.eqb c "-" || Ascii.eqb c "~".

Fixpoint mem (c : ascii) (s : string) : bool :=
  match s with
  | EmptyString => false
  | String d s' => Ascii.eqb c d || mem c s'
  end.

(** The quoter's safe set: [_ALWAYS_SAFE] and the ASCII characters of
    [safe] (non-ASCII characters of [safe] are dropped). *)
Definition is_safe (safe : string) (c : ascii) : bool :=
  always_safe c || ((N_of_ascii c <? 128)%N && mem c safe).

Definition hex_digit (n : N) : ascii :=
  if (n <? 10)%N then ascii_of_N (48 + n) else ascii_of_N (55 + n).

(** ['%{:02X}'.format(b)] *)
Definition percent (c : ascii) : string :=
  let n := N_of_ascii c in
  String "%" (String (hex_digit (n / 16)) (String (hex_digit (n mod 16)) EmptyString)).

Definition quoter (safe : string) (c : ascii) : string :=
  if is_safe safe c then String c EmptyString else percent c.

Fixpoint all_safe (safe : string) (bs : string) : bool :=
  match bs with
  | EmptyString => true
  | String c bs' => is_safe safe c && all_safe safe bs'
  end.

Fixpoint quote_each (safe : string) (bs : string) : string :=
  match bs with
  | EmptyString => EmptyString
  | String c bs' => quoter safe c ++ quote_each safe bs'
  end.

(** [quote_from_bytes]: a string of safe bytes only is returned as it is,
    any other one is quoted byte by byte. *)
Definition quote (s : string) (safe : string) : string :=
  if all_safe safe s then s else quote_each safe s.

Fixpoint replace_space_plus (s : string) : string :=
  match s with
  | EmptyString => EmptyString
  | String c s' =>
      String (if Ascii.eqb c " " then "+"%char else c) (replace_space_plus s')
  end.

(** [quote_plus]: without a space this is [quote]; with one, the space is
    kept by the quoter and then replaced by a plus sign. *)
Definition quote_plus (s : string) (safe : string) : string :=
  if negb (mem " " s) then quote s safe
  else replace_space_plus (quote s (safe ++ " ")).

Fixpoint join (sep : string) (l : list string) : string :=
  match l with
  | [] => EmptyString
  | [x] => x
  | x :: l' => x ++ sep ++ join sep l'
  end.

(** [urlencode(query, safe=safe)] on the items of a dict whose keys and
    values are already text ([doseq] false, [quote_via] is [quote_plus]). *)
Definition urlencode (query : list (string * string)) (safe : string) : string :=
  join "&" (map (fun kv => quote_plus (fst kv) safe ++ "=" ++ quote_plus (snd kv) safe) query).

End Urllib.

(** ** The HTTP exchange, as the aiohttp client presents it *)

Inductive http_method : Type := GET | POST | DELETE.

(** Keyword arguments handed through to [ClientSession.request]: the
    transport options of the caller (headers, timeout, ...) and, where the
    library passes one, the [json] body.  Names that the called function
    binds itself are not expected here: Python rejects such a call before
    anything is sent. *)
Definition kwargs : Type := list (string * pyval).

(** A keyword that a domain method does not give to the verb it calls, so
    that the caller can give it in [**kwargs]: the verb binds it, and it
    does not reach the client.  These are [content_type], and [params]
    for a call of [get].  [None] is a keyword that is not given: the verb
    takes its default. *)
Definition keyword (A : Type) : Type := option A.

Definition given {A : Type} (k : keyword A) (default : A) : A :=
  match k with
  | Some a => a
  | None => default
  end.

Definition headers : Type := list (string * string).

(** One call of [ClientSession.get/post/delete]. *)
Record Request : Type := {
  rq_method : http_method;
  rq_base_url : string;
  rq_url : string;
  rq_ssl : option bool;
  rq_kwargs : kwargs
}.

(** The body of a response, as [json.loads] sees it: empty after stripping,
    the text of a JSON value, or anything else. *)
Inductive Body : Type :=
| EmptyBody
| JsonBody (j : pyval)
| MalformedBody.

Record Response : Type := {
  status : Z;
  reason : string;
  rs_headers : headers;
  body : Body
}.

(** What the backend does with a request: it answers, or the connection
    fails before any response exists. *)
Inductive answer : Type :=
| Answer (r : Response)
| ConnectionFailure (msg : string).

(** ** Exceptions *)

(** The attributes of aiohttp's [ClientResponseError] (the redirect history
    is left out: the model has no redirects). *)
Record response_error : Type := {
  request_info : Request;
  e_status : Z;
  message : string;
  e_headers : headers
}.

(** What the model keeps of aiohttp's [ContentTypeError], the subclass of
    [ClientResponseError] that [json] raises: the request, the status and
    the headers.  Its message quotes the content type of the response; that
    text is not represented. *)
Record mimetype_error : Type := {
  mt_request_info : Request;
  mt_status : Z;
  mt_headers : headers
}.

Inductive exn : Type :=
| ClientResponseError (i : response_error)
| ContentTypeError (i : mimetype_error)
| ClientConnectionError (msg : string)
| JSONDecodeError
| AttributeError
| RuntimeError
| TypeError
| KeyError (k : pyval)
| IndexError
| SystemExit (code : Z) (context : option exn).

(** [except ClientResponseError]: the class and its subclass. *)
Definition is_ClientResponseError (e : exn) : bool :=
  match e with
  | ClientResponseError _ | ContentTypeError _ => true
  | _ => false
  end.

(** ** The session object and the world *)

(** The [_session] attribute: not yet assigned, [None], or a reference to
    a [ClientSession] object of the store. *)
Inductive session_attr : Type :=
| Unset
| IsNone
| Client (id : nat).

Record BaseSession : Type := {
  url : string;
  definition : string;
  version : string;
  ssl : option bool;
  _kwargs : kwargs;
  _session : session_attr
}.

(** An [aiohttp.ClientSession] object; [cs_close_calls] counts the calls of
    [close] on it. *)
Record ClientSession : Type := {
  cs_base_url : string;
  cs_kwargs : kwargs;
  cs_closed : bool;
  cs_close_calls : nat
}.

Inductive printed : Type :=
| PrintExn (e : exn)
| PrintStr (s : string).

Record World : Type := {
  clients : list ClientSession;
  sent : list Request;
  sleeps : list Z;
  stdout : list printed
}.

Record State : Type := {
  self : BaseSession;
  world : World
}.

(** ** Coroutines: state passing with exceptions *)

Inductive result (A : Type) : Type :=
| Return (a : A)
| Raise (e : exn).

Arguments Return {A} a.
Arguments Raise {A} e.

Definition M (A : Type) : Type := State -> result A * State.

Definition ret {A : Type} (a : A) : M A := fun st => (Return a, st).

Definition raise {A : Type} (e : exn) : M A := fun st => (Raise e, st).

Definition bind {A B : Type} (m : M A) (k : A -> M B) : M B :=
  fun st =>
    match m st with
    | (Return a, st') => k a st'
    | (Raise e, st') => (Raise e, st')
    end.

Notation "x <- m ;; k" := (bind m (fun x => k))
  (at level 61, m at next level, right associativity).
Notation "m ;;; k" := (bind m (fun _ => k))
  (at level 61, right associativity).

Definition set_session (a : session_attr) (s : BaseSession) : BaseSession :=
  {| url := url s; definition := definition s; version := version s;
     ssl := ssl s; _kwargs := _kwargs s; _session := a |}.

Definition with_self (f : BaseSession -> BaseSession) : M unit :=
  fun st => (Return tt, {| self := f (self st); world := world st |}).

Definition with_world (f : World -> World) : M unit :=
  fun st => (Return tt, {| self := self st; world := f (world st) |}).

Definition log_request (rq : Request) (w : World) : World :=
  {| clients := clients w; sent := sent w ++ [rq];
     sleeps := sleeps w; stdout := stdout w |}.

Definition add_client (c : ClientSession) (w : World) : World :=
  {| clients := clients w ++ [c]; sent := sent w;
     sleeps := sleeps w; stdout := stdout w |}.

Fixpoint update_nth {A : Type} (n : nat) (f : A -> A) (l : list A) : list A :=
  match l, n with
  | [], _ => []
  | x :: l', O => f x :: l'
  | x :: l', S n' => x :: update_nth n' f l'
  end.

Definition update_client (id : nat) (f : ClientSession -> ClientSession) (w : World) : World :=
  {| clients := update_nth id f (clients w); sent := sent w;
     sleeps := sleeps w; stdout := stdout w |}.

(** [asyncio.sleep(delay)] *)
Definition sleep (delay : Z) : M unit :=
  with_world (fun w =>
    {| clients := clients w; sent := sent w;
       sleeps := sleeps w ++ [delay]; stdout := stdout w |}).

(** [print(x)] *)
Definition print (x : printed) : M unit :=
  with_world (fun w =>
    {| clients := clients w; sent := sent w;
       sleeps := sleeps w; stdout := stdout w ++ [x] |}).

(** [sys.exit(code)]: raises [SystemExit(code)]; when it is called while an
    exception is being handled, that exception is the [__context__] of the
    exit. *)
Definition sys_exit {A : Type} (code : Z) (handling : option exn) : M A :=
  raise (SystemExit code handling).

(** ** base.py: BaseSession *)

(** [BaseSession.__init__]; the [_session] attribute does not exist before
    the first [__aenter__]. *)
Definition BaseSession_init (url definition version : string)
    (ssl : option bool) (kw : kwargs) : BaseSession :=
  {| url := url; definition := definition; version := version;
     ssl := ssl; _kwargs := kw; _session := Unset |}.

(** The [endpoint] property: [f'/{self.definition}/{self.version}']. *)
Definition endpoint (s : BaseSession) : string :=
  "/" ++ definition s ++ "/" ++ version s.

Section Transport.

(** The backend: its answer to a request, given the requests sent before. *)
Variable backend : list Request -> Request -> answer.

(** aiohttp's test of a response's Content-Type header against the content
    type the caller of [json] expects. *)
Variable expected_content_type : headers -> string -> bool.

(** [__aenter__]: a new [ClientSession] on the base URL, with the options
    given to the constructor (what the constructor of the client itself
    may reject is not modelled: the client is always created). *)
Definition aenter : M unit :=
  fun st =>
    let s := self st in
    let id := List.length (clients (world st)) in
    let c := {| cs_base_url := url s; cs_kwargs := _kwargs s;
                cs_closed := false; cs_close_calls := 0 |} in
    (Return tt, {| self := set_session (Client id) s;
                   world := add_client c (world st) |}).

(** [ClientSession.close] *)
Definition client_close (id : nat) : M unit :=
  with_world (update_client id (fun c =>
    {| cs_base_url := cs_base_url c; cs_kwargs := cs_kwargs c;
       cs_closed := true; cs_close_calls := S (cs_close_calls c) |})).

(** [__aexit__]: whatever error it is given, close and forget the client; the
    result is [None], so an exception of the block is not swallowed. *)
Definition aexit : M unit :=
  fun st =>
    match _session (self st) with
    | Client id =>
        (client_close id ;;; with_self (set_session IsNone)) st
    | Unset | IsNone => (Raise AttributeError, st)
    end.

(** [self._session.<verb>(url=url, ssl=self.ssl, **kwargs)]: the attribute
    must hold a client, the client must be open; the request then reaches
    the backend. *)
Definition session_request (m : http_method) (path : string) (kw : kwargs)
  : M (Request * Response) :=
  fun st =>
    match _session (self st) with
    | Client id =>
        match nth_error (clients (world st)) id with
        | Some c =>
            if cs_closed c then (Raise RuntimeError, st)
            else
              let rq := {| rq_method := m; rq_base_url := cs_base_url c;
                           rq_url := path; rq_ssl := ssl (self st);
                           rq_kwargs := kw |} in
              let st' := {| self := self st;
                            world := log_request rq (world st) |} in
              match backend (sent (world st)) rq with
              | Answer r => (Return (rq, r), st')
              | ConnectionFailure msg => (Raise (ClientConnectionError msg), st')
              end
        | None => (Raise RuntimeError, st)
        end
    | Unset | IsNone => (Raise AttributeError, st)
    end.

Definition error_of (rq : Request) (r : Response) (msg : string) : response_error :=
  {| request_info := rq; e_status := status r; message := msg;
     e_headers := rs_headers r |}.

(** [resp.raise_for_status()]: raises unless [400 > status]. *)
Definition raise_for_status (rq : Request) (r : Response) : M unit :=
  if 400 <=? status r
  then raise (ClientResponseError (error_of rq r (reason r)))
  else ret tt.

Definition nonempty (s : string) : bool :=
  match s with
  | EmptyString => false
  | String _ _ => true
  end.

Definition mimetype_error_of (rq : Request) (r : Response) : mimetype_error :=
  {| mt_request_info := rq; mt_status := status r; mt_headers := rs_headers r |}.

(** [loads(stripped.decode(encoding))], and [None] for an empty body. *)
Definition loads_body (b : Body) : M pyval :=
  match b with
  | EmptyBody => ret PNone
  | JsonBody j => ret j
  | MalformedBody => raise JSONDecodeError
  end.

(** [resp.json(content_type=content_type)]: the header is tested only
    against a content type that is there and not empty. *)
Definition json (rq : Request) (r : Response) (content_type : option string)
  : M pyval :=
  let unexpected :=
    match content_type with
    | Some ct => nonempty ct && negb (expected_content_type (rs_headers r) ct)
    | None => false
    end in
  if unexpected
  then raise (ContentTypeError (mimetype_error_of rq r))
  else loads_body (body r).

Definition application_json : option string := Some "application/json".

(** [BaseSession.get] *)
Definition get (url : string) (params : list (string * string))
    (content_type : option string) (kw : kwargs) : M pyval :=
  fun st =>
    let params_str := Urllib.urlencode params "+'()" in
    let url := endpoint (self st) ++ url in
    let url := if nonempty params_str then url ++ "?" ++ params_str else url in
    (rr <- session_request GET url kw ;;
     raise_for_status (fst rr) (snd rr) ;;;
     json (fst rr) (snd rr) content_type) st.

(** [BaseSession.post] *)
Definition post (url : string) (content_type : option string) (kw : kwargs)
  : M pyval :=
  fun st =>
    let url := endpoint (self st) ++ url in
    (rr <- session_request POST url kw ;;
     raise_for_status (fst rr) (snd rr) ;;;
     json (fst rr) (snd rr) content_type) st.

(** [BaseSession.delete] *)
Definition delete (url : string) (content_type : option string) (kw : kwargs)
  : M pyval :=
  fun st =>
    let url := endpoint (self st) ++ url in
    (rr <- session_request DELETE url kw ;;
     raise_for_status (fst rr) (snd rr) ;;;
     json (fst rr) (snd rr) content_type) st.

(** ** vm6.py: AuthSession *)

Definition AuthSession (url : string) (ssl : option bool) (kw : kwargs) : BaseSession :=
  BaseSession_init url "auth" "v4" ssl kw.

(** [email_or_id: Union[int, str]] *)
Inductive email_or_id : Type :=
| Email (s : string)
| Id (n : Z).

Definition format_email_or_id (x : email_or_id) : string :=
  match x with
  | Email s => s
  | Id n => str_of_int n
  end.

Definition get_key (who : email_or_id)
    (content_type : keyword (option string)) (kw : kwargs) : M pyval :=
  post ("/user/" ++ format_email_or_id who ++ "/key")
    (given content_type application_json) kw.

(** The keyword arguments of the token request: [json=...] before the
    caller's. *)
Definition token_kwargs (email password : string) (kw : kwargs) : kwargs :=
  ("json", PDict [("email", PStr email); ("password", PStr password)]) :: kw.

(** Where the [while] loop of [get_token] is: at the loop test with
    [attempts] left, or out of the coroutine with a result. *)
Inductive token_loop : Type :=
| Attempting (attempts : option Z) (st : State)
| Finished (r : result pyval) (st : State).

(** [attempts -= 1] *)
Definition decrement (attempts : option Z) : option Z :=
  match attempts with
  | Some n => Some (n - 1)
  | None => None
  end.

Definition exhausted_message : string :=
  "attempts to get an auth token have been exhausted.".

(** The [except ClientResponseError as error] block. *)
Definition on_response_error (error : exn) (attempts : option Z) : M (option Z) :=
  sleep 1 ;;;
  let attempts := decrement attempts in
  if negb (truthy_int attempts)
  then print (PrintExn error) ;;; print (PrintStr exhausted_message) ;;; sys_exit 1 (Some error)
  else ret attempts.

(** The loop test and one pass through the body of [while attempts:]. *)
Definition get_token_pass (email password : string) (kw : kwargs)
    (attempts : option Z) (st : State) : token_loop :=
  if truthy_int attempts then
    match post "/public/token" None (token_kwargs email password kw) st with
    | (Return response, st1) => Finished (Return response) st1
    | (Raise error, st1) =>
        if is_ClientResponseError error then
          match on_response_error error attempts st1 with
          | (Return attempts', st2) => Attempting attempts' st2
          | (Raise e, st2) => Finished (Raise e) st2
          end
        else Finished (Raise error) st1
    end
  else Finished (Return PNone) st.

(** The loop, with [fuel] bounding the number of passes: [None] is a loop
    that is still running when the fuel is used up. *)
Fixpoint token_loop_run (fuel : nat) (email password : string) (kw : kwargs)
    (l : token_loop) : option (result pyval * State) :=
  match l with
  | Finished r st => Some (r, st)
  | Attempting attempts st =>
      match fuel with
      | O => None
      | S fuel' =>
          token_loop_run fuel' email password kw
            (get_token_pass email password kw attempts st)
      end
  end.

(** [AuthSession.get_token] *)
Definition get_token (fuel : nat) (email password : string)
    (attempts : option Z) (kw : kwargs) (st : State)
  : option (result pyval * State) :=
  token_loop_run fuel email password kw (Attempting attempts st).

Definition default_attempts : option Z := Some 3.

Definition whoami (params : keyword (list (string * string)))
    (content_type : keyword (option string)) (kw : kwargs) : M pyval :=
  get "/whoami" (given params []) (given content_type application_json) kw.

(** ** vm6.py: DnsProxySession, IpSession, VmSession *)

Definition DnsProxySession (url : string) (ssl : option bool) (kw : kwargs) : BaseSession :=
  BaseSession_init url "dnsproxy" "v3" ssl kw.

Definition IpSession (url : string) (ssl : option bool) (kw : kwargs) : BaseSession :=
  BaseSession_init url "ip" "v3" ssl kw.

Definition VmSession (url : string) (ssl : option bool) (kw : kwargs) : BaseSession :=
  BaseSession_init url "vm" "v3" ssl kw.

Definition get_task (task_id : Z) (params : keyword (list (string * string)))
    (content_type : keyword (option string)) (kw : kwargs) : M pyval :=
  get ("/task/" ++ str_of_int task_id) (given params [])
    (given content_type application_json) kw.

Fixpoint dict_get (k : string) (d : list (string * pyval)) : option pyval :=
  match d with
  | [] => None
  | (k', v) :: d' => if String.eqb k k' then Some v else dict_get k d'
  end.

(** Number of bytes of the UTF-8 character that starts with byte [c]. *)
Definition utf8_width (c : ascii) : nat :=
  let n := N_of_ascii c in
  if (n <? 192)%N then 1%nat
  else if (n <? 224)%N then 2%nat
  else if (n <? 240)%N then 3%nat
  else 4%nat.

(** [x['list']] *)
Definition subscript_list (x : pyval) : M pyval :=
  match x with
  | PDict d =>
      match dict_get "list" d with
      | Some v => ret v
      | None => raise (KeyError (PStr "list"))
      end
  | _ => raise TypeError
  end.

(** [x[0]] *)
Definition subscript_0 (x : pyval) : M pyval :=
  match x with
  | PList l =>
      match l with
      | v :: _ => ret v
      | [] => raise IndexError
      end
  | PStr s =>
      match s with
      | String c _ => ret (PStr (substring 0 (utf8_width c) s))
      | EmptyString => raise IndexError
      end
  | PDict _ => raise (KeyError (PInt 0))
  | _ => raise TypeError
  end.

Definition get_task_by_consul_id (consul_id : Z)
    (content_type : keyword (option string)) (kw : kwargs) : M pyval :=
  response <- get "/task" [("where", "consul_id+EQ+" ++ str_of_int consul_id)]
                  (given content_type application_json) kw ;;
  l <- subscript_list response ;;
  subscript_0 l.

Definition host_create (host_params : pyval)
    (content_type : keyword (option string)) (kw : kwargs) : M pyval :=
  post "/host" (given content_type application_json) (("json", host_params) :: kw).

Definition host_delete (host_id : Z)
    (content_type : keyword (option string)) (kw : kwargs) : M pyval :=
  delete ("/host/" ++ str_of_int host_id) (given content_type application_json) kw.

Definition host_edit (host_id : Z) (host_params : pyval)
    (content_type : keyword (option string)) (kw : kwargs) : M pyval :=
  post ("/host/" ++ str_of_int host_id) (given content_type application_json)
    (("json", host_params) :: kw).

End Transport.

(** ** The operations of the library, as one type *)

(** A call of one of the verbs or of one of the domain methods. *)
Inductive op : Type :=
| OpGet (url : string) (params : list (string * string))
        (content_type : option string) (kw : kwargs)
| OpPost (url : string) (content_type : option string) (kw : kwargs)
| OpDelete (url : string) (content_type : option string) (kw : kwargs)
| OpGetKey (who : email_or_id) (content_type : keyword (option string))
           (kw : kwargs)
| OpGetToken (email password : string) (attempts : option Z) (kw : kwargs)
| OpWhoami (params : keyword (list (string * string)))
           (content_type : keyword (option string)) (kw : kwargs)
| OpGetTask (task_id : Z) (params : keyword (list (string * string)))
            (content_type : keyword (option string)) (kw : kwargs)
| OpGetTaskByConsulId (consul_id : Z) (content_type : keyword (option string))
                      (kw : kwargs)
| OpHostCreate (host_params : pyval) (content_type : keyword (option string))
               (kw : kwargs)
| OpHostDelete (host_id : Z) (content_type : keyword (option string))
               (kw : kwargs)
| OpHostEdit (host_id : Z) (host_params : pyval)
             (content_type : keyword (option string)) (kw : kwargs).

(** A coroutine that may run forever: [None] when the fuel does not reach
    its end. *)
Definition P (A : Type) : Type := State -> option (result A * State).

Definition total {A : Type} (m : M A) : P A := fun st => Some (m st).

Section Programs.

Variable backend : list Request -> Request -> answer.
Variable expected_content_type : headers -> string -> bool.

Definition run_op (fuel : nat) (o : op) : P pyval :=
  match o with
  | OpGet u params ct kw => total (get backend expected_content_type u params ct kw)
  | OpPost u ct kw => total (post backend expected_content_type u ct kw)
  | OpDelete u ct kw => total (delete backend expected_content_type u ct kw)
  | OpGetKey who ct kw => total (get_key backend expected_content_type who ct kw)
  | OpGetToken email password attempts kw =>
      get_token backend expected_content_type fuel email password attempts kw
  | OpWhoami params ct kw => total (whoami backend expected_content_type params ct kw)
  | OpGetTask task_id params ct kw =>
      total (get_task backend expected_content_type task_id params ct kw)
  | OpGetTaskByConsulId consul_id ct kw =>
      total (get_task_by_consul_id backend expected_content_type consul_id ct kw)
  | OpHostCreate host_params ct kw =>
      total (host_create backend expected_content_type host_params ct kw)
  | OpHostDelete host_id ct kw =>
      total (host_delete backend expected_content_type host_id ct kw)
  | OpHostEdit host_id host_params ct kw =>
      total (host_edit backend expected_content_type host_id host_params ct kw)
  end.

(** A block of calls, one after the other; the first exception ends it.
    The value of the block is the value of its last call. *)
Fixpoint run_block (fuel : nat) (block : list op) (last : pyval) : P pyval :=
  fun st =>
    match block with
    | [] => Some (Return last, st)
    | o :: block' =>
        match run_op fuel o st with
        | Some (Return v, st') => run_block fuel block' v st'
        | Some (Raise e, st') => Some (Raise e, st')
        | None => None
        end
    end.

(** [async with session: block]: enter, run the block, exit on every path.
    [__aexit__] returns [None], so what the block raised is raised again,
    unless the exit itself raises.  A block that runs forever never exits. *)
Definition async_with_block (fuel : nat) (block : list op) : P pyval :=
  fun st =>
    match aenter st with
    | (Return _, st1) =>
        match run_block fuel block PNone st1 with
        | Some (r, st2) =>
            match aexit st2 with
            | (Return _, st3) => Some (r, st3)
            | (Raise e, st3) => Some (Raise e, st3)
            end
        | None => None
        end
    | (Raise e, st1) => Some (Raise e, st1)
    end.

End Programs.

(** ** Measures used in the statements *)

(** The Session Configuration: every attribute set by [__init__]. *)
Definition configuration (s : BaseSession)
  : string * string * string * option bool * kwargs :=
  (url s, definition s, version s, ssl s, _kwargs s).

Definition starts_with_slash (s : string) : bool :=
  match s with
  | String c _ => Ascii.eqb c "/"
  | EmptyString => false
  end.

Fixpoint ends_with_slash (s : string) : bool :=
  match s with
  | EmptyString => false
  | String c EmptyString => Ascii.eqb c "/"
  | String _ s' => ends_with_slash s'
  end.

(** Number of places where a slash is followed by a slash. *)
Fixpoint double_slashes (s : string) : nat :=
  match s with
  | EmptyString => O
  | String c s' =>
      ((if Ascii.eqb c "/" && starts_with_slash s' then 1 else 0)
       + double_slashes s')%nat
  end.

(** A path segment: not empty, no slash in it. *)
Definition segment (s : string) : bool :=
  nonempty s && negb (Urllib.mem "/" s).

(** The session holds an open client [c]. *)
Definition open_with (c : ClientSession) (st : State) : Prop :=
  exists id, _session (self st) = Client id
             /\ nth_error (clients (world st)) id = Some c
             /\ cs_closed c = false.

(** The request a verb sends from [st] through client [c]. *)
Definition request_of (m : http_method) (c : ClientSession) (st : State)
    (path : string) (kw : kwargs) : Request :=
  {| rq_method := m; rq_base_url := cs_base_url c;
     rq_url := endpoint (self st) ++ path; rq_ssl := ssl (self st);
     rq_kwargs := kw |}.

(** The description of the query encoding, character by character: the
    four filter characters stay, a space becomes a plus sign, letters,
    digits and [_.-~] stay, every other byte becomes [%XX]. *)
Definition encoded_char (c : ascii) : string :=
  if Ascii.eqb c "+" || Ascii.eqb c "'" || Ascii.eqb c "(" || Ascii.eqb c ")"
  then String c EmptyString
  else if Ascii.eqb c " " then "+"
  else if Urllib.always_safe c then String c EmptyString
  else Urllib.percent c.

Fixpoint encoded (s : string) : string :=
  match s with
  | EmptyString => EmptyString
  | String c s' => encoded_char c ++ encoded s'
  end.

(** One of the three verbs, by its HTTP method ([params] is for [get]). *)
Definition verb (backend : list Request -> Request -> answer)
    (expected_content_type : headers -> string -> bool)
    (m : http_method) (url : string) (params : list (string * string))
    (content_type : option string) (kw : kwargs) : M pyval :=
  match m with
  | GET => get backend expected_content_type url params content_type kw
  | POST => post backend expected_content_type url content_type kw
  | DELETE => delete backend expected_content_type url content_type kw
  end.

(** ** Backends and sessions for the examples *)

Module Scenario.

Definition json_headers : headers := [("Content-Type", "application/json")].

(** A content type test for the examples: the first header is the expected
    content type. *)
Definition first_header_is (h : headers) (ct : string) : bool :=
  match h with
  | (_, v) :: _ => String.eqb v ct
  | [] => false
  end.

Definition response (code : Z) (why : string) (b : Body) : Response :=
  {| status := code; reason := why; rs_headers := json_headers; body := b |}.

Definition unavailable : Response :=
  response 503 "Service Unavailable" EmptyBody.

Definition token : pyval := PDict [("token", PStr "t0k3n")].

(** Answers by position: the n-th request gets the n-th answer of the
    script, later ones get [otherwise]. *)
Definition scripted (script : list Response) (otherwise : Response)
  : list Request -> Request -> answer :=
  fun history _ => Answer (nth (List.length history) script otherwise).

Definition always (r : Response) : list Request -> Request -> answer :=
  scripted [] r.

Definition nothing : World :=
  {| clients := []; sent := []; sleeps := []; stdout := [] |}.

Definition fresh (s : BaseSession) : State := {| self := s; world := nothing |}.

(** The state inside [async with s:]. *)
Definition entered (s : BaseSession) : State := snd (aenter (fresh s)).

Definition auth : BaseSession := AuthSession "https://vm.example.com" (Some true) [].

Definition vm : BaseSession := VmSession "https://vm.example.com" (Some true) [].

Definition the_client : ClientSession :=
  {| cs_base_url := "https://vm.example.com"; cs_kwargs := [];
     cs_closed := false; cs_close_calls := 0 |}.

Definition not_found_body : pyval := PDict [("error", PStr "not found")].

Definition not_found (b : Body) : Response := response 404 "Not Found" b.

(** A JSON body sent as [text/html]. *)
Definition html_ok : Response :=
  {| status := 200; reason := "OK";
     rs_headers := [("Content-Type", "text/html")]; body := JsonBody token |}.

(** A session whose version segment ends with a slash. *)
Definition vm_trailing_slash : BaseSession :=
  BaseSession_init "https://vm.example.com" "vm" "v3/" (Some true) [].

Definition tasks (l : list pyval) : Response :=
  response 200 "OK" (JsonBody (PDict [("list", PList l)])).

End Scenario.

(** ** Vocabulary of the statements about states *)

(** The state after request [rq] has gone out. *)
Definition logged (rq : Request) (st : State) : State :=
  {| self := self st; world := log_request rq (world st) |}.

(** What a verb does with the response [r] to its request [rq]. *)
Definition respond (expected_content_type : headers -> string -> bool)
    (rq : Request) (r : Response) (content_type : option string) : M pyval :=
  raise_for_status rq r ;;; json expected_content_type rq r content_type.

(** The query suffix that [get] appends to its path. *)
Definition query_suffix (params : list (string * string)) : string :=
  match params with
  | [] => ""
  | _ => "?" ++ Urllib.urlencode params "+'()"
  end.

(** The path of [rq] starts with the endpoint of [s]. *)
Definition prefixed (s : BaseSession) (rq : Request) : Prop :=
  exists rest, rq_url rq = endpoint s ++ rest.

(** What a call may change: nothing of the session object, nothing of the
    clients; requests are added, each under the endpoint. *)
Record frame (st st' : State) : Prop := {
  frame_self : self st' = self st;
  frame_clients : clients (world st') = clients (world st);
  frame_sent : exists new, sent (world st') = (sent (world st) ++ new)%list
                           /\ Forall (prefixed (self st)) new
}.

(** From [st] to [st']: the session object and the clients are the same,
    and exactly these requests, delays and lines of output were added. *)
Definition after (st st' : State) (requests : list Request) (delays : list Z)
    (output : list printed) : Prop :=
  self st' = self st
  /\ clients (world st') = clients (world st)
  /\ sent (world st') = (sent (world st) ++ requests)%list
  /\ sleeps (world st') = (sleeps (world st) ++ delays)%list
  /\ stdout (world st') = (stdout (world st) ++ output)%list.

(** The state a pass of the token loop ends in. *)
Definition loop_state (l : token_loop) : State :=
  match l with
  | Attempting _ st => st
  | Finished _ st => st
  end.

(** The path a verb adds to the endpoint: for [get], the query suffix
    comes after the relative path. *)
Definition relative (m : http_method) (url : string)
    (params : list (string * string)) : string :=
  url ++ match m with GET => query_suffix params | _ => "" end.

(** The request of [get_token]. *)
Definition token_request (c : ClientSession) (st : State)
    (email password : string) (kw : kwargs) : Request :=
  request_of POST c st "/public/token" (token_kwargs email password kw).

(** What [get_token] prints before it exits. *)
Definition exhausted_output (rq : Request) (r : Response) : list printed :=
  [PrintExn (ClientResponseError (error_of rq r (reason r)));
   PrintStr exhausted_message].

(** The exit of [get_token]: status 1, with the error of the last response
    as its context. *)
Definition exhausted_exit (rq : Request) (r : Response) : exn :=
  SystemExit 1 (Some (ClientResponseError (error_of rq r (reason r)))).


(** The client that [__aenter__] creates for a session, and the same
    client after one call of [close]. *)
Definition new_client (s : BaseSession) : ClientSession :=
  {| cs_base_url := url s; cs_kwargs := _kwargs s;
     cs_closed := false; cs_close_calls := 0 |}.

Definition closed_once (s : BaseSession) : ClientSession :=
  {| cs_base_url := url s; cs_kwargs := _kwargs s;
     cs_closed := true; cs_close_calls := 1 |}.

(** ** Vocabulary of the further properties *)

(** The session holds no client: it was never entered, or it was left. *)
Definition no_client (st : State) : Prop :=
  _session (self st) = IsNone \/ _session (self st) = Unset.

(** Number of occurrences of a character. *)
Fixpoint count_char (c : ascii) (s : string) : nat :=
  match s with
  | EmptyString => O
  | String x s' => ((if Ascii.eqb x c then 1 else 0) + count_char c s')%nat
  end.

(** An exception that is not a process exit. *)
Definition not_exit (r : result pyval) : Prop :=
  match r with
  | Raise (SystemExit _ _) => False
  | _ => True
  end.

(** The calls that go through a verb once: every call but [get_token]. *)
Definition single_call (o : op) : bool :=
  match o with
  | OpGetToken _ _ _ _ => false
  | _ => true
  end.

(** What a call on a session without a client ends with. *)
Definition outcome_without_client (o : op) : result pyval :=
  match o with
  | OpGetToken _ _ attempts _ =>
      if truthy_int attempts then Raise AttributeError else Return PNone
  | _ => Raise AttributeError
  end.

(** A request of the session: to the base URL of the client, with the TLS
    flag of the session, under the endpoint. *)
Definition of_session (base : string) (s : BaseSession) (rq : Request) : Prop :=
  rq_base_url rq = base /\ rq_ssl rq = ssl s /\ prefixed s rq.

Module Backends.

Definition unauthorized : Response :=
  Scenario.response 401 "Unauthorized" EmptyBody.

(** A backend that cannot be reached. *)
Definition unreachable : list Request -> Request -> answer :=
  fun _ _ => ConnectionFailure "connection refused".

Definition garbled : Response :=
  Scenario.response 200 "OK" MalformedBody.

End Backends.

(** [k] times [async with session: pass], one after the other. *)
Fixpoint enter_exit (k : nat) : M unit :=
  match k with
  | O => ret tt
  | S k' => aenter ;;; aexit ;;; enter_exit k'
  end.

(** The four sessions of [vm6.py], with their default definition and
    version. *)
Definition default_sessions (url : string) (ssl : option bool) (kw : kwargs)
  : list BaseSession :=
  [AuthSession url ssl kw; DnsProxySession url ssl kw;
   IpSession url ssl kw; VmSession url ssl kw].

(** Value of a hexadecimal digit, and the byte written by two of them. *)
Definition hex_value (a : ascii) : N :=
  let n := N_of_ascii a in
  if (n <? 58)%N then (n - 48)%N else (n - 55)%N.

Definition byte_of_hex (h1 h2 : ascii) : ascii :=
  ascii_of_N (16 * hex_value h1 + hex_value h2).

(** A space read as a plus sign, any other character as itself. *)
Definition space_as_plus (c : ascii) : ascii :=
  if Ascii.eqb c " " then "+"%char else c.

(** A client after one more call of [close]. *)
Definition closed (c : ClientSession) : ClientSession :=
  {| cs_base_url := cs_base_url c; cs_kwargs := cs_kwargs c;
     cs_closed := true; cs_close_calls := S (cs_close_calls c) |}.

(** The declared content type lets the body of a response with headers [h]
    through to the decoder: it is [None], or empty, or the one the
    response has. *)
Definition accepted (expected_content_type : headers -> string -> bool)
    (h : headers) (declared : option string) : Prop :=
  declared = None \/ declared = Some ""
  \/ exists t, declared = Some t /\ expected_content_type h t = true.

(** * Properties *)

(** ** Strings *)

Lemma append_nil_r (s : string) : s ++ "" = s.
Proof. induction s as [|c s IH]; simpl; [reflexivity | now rewrite IH]. Qed.

Lemma append_assoc (a b c : string) : (a ++ b) ++ c = a ++ (b ++ c).
Proof. induction a as [|x a IH]; simpl; [reflexivity | now rewrite IH]. Qed.

Lemma mem_append (c : ascii) (a b : string) :
  Urllib.mem c (a ++ b) = Urllib.mem c a || Urllib.mem c b.
Proof.
  induction a as [|x a IH]; simpl; [reflexivity|].
  now rewrite IH, orb_assoc.
Qed.

Lemma nonempty_append_r (a b : string) : nonempty b = true -> nonempty (a ++ b) = true.
Proof. destruct a; simpl; auto. Qed.

(** ** urllib.parse *)

Module UrllibFacts.
Import Urllib.

Ltac each_byte c :=
  destruct c as [[] [] [] [] [] [] [] []].

Lemma quote_is_quote_each (s safe : string) : quote s safe = quote_each safe s.
Proof.
  unfold quote.
  destruct (all_safe safe s) eqn:E; [|reflexivity].
  induction s as [|c s IH]; simpl in *; [reflexivity|].
  apply andb_true_iff in E as [Hc Hs].
  unfold quoter. rewrite Hc. simpl. now rewrite <- IH.
Qed.

Lemma quoter_filter (c : ascii) :
  Ascii.eqb c " " = false -> quoter "+'()" c = encoded_char c.
Proof. each_byte c; intros H; try discriminate H; reflexivity. Qed.

Lemma quoter_filter_space (c : ascii) :
  replace_space_plus (quoter "+'() " c) = encoded_char c.
Proof. each_byte c; reflexivity. Qed.

Lemma replace_space_plus_append (a b : string) :
  replace_space_plus (a ++ b) = replace_space_plus a ++ replace_space_plus b.
Proof. induction a as [|x a IH]; simpl; [reflexivity | now rewrite IH]. Qed.

Lemma quote_each_no_space (s : string) :
  mem " " s = false -> quote_each "+'()" s = encoded s.
Proof.
  induction s as [|c s IH]; simpl; [reflexivity|].
  intros H. apply orb_false_iff in H as [Hc Hs].
  rewrite IH by assumption.
  rewrite quoter_filter; [reflexivity|].
  now rewrite Ascii.eqb_sym.
Qed.

Lemma quote_each_space (s : string) :
  replace_space_plus (quote_each "+'() " s) = encoded s.
Proof.
  induction s as [|c s IH]; simpl; [reflexivity|].
  now rewrite replace_space_plus_append, quoter_filter_space, IH.
Qed.

(** [quote_plus] with the safe set of [get] is the character-wise
    description. *)
Lemma quote_plus_encoded (s : string) : quote_plus s "+'()" = encoded s.
Proof.
  unfold quote_plus.
  destruct (mem " " s) eqn:E; simpl.
  - rewrite quote_is_quote_each. apply quote_each_space.
  - rewrite quote_is_quote_each. now apply quote_each_no_space.
Qed.

Lemma encoded_append (a b : string) : encoded (a ++ b) = encoded a ++ encoded b.
Proof.
  induction a as [|x a IH]; simpl; [reflexivity|].
  now rewrite IH, append_assoc.
Qed.

Lemma encoded_char_separators (c : ascii) :
  mem "&" (encoded_char c) = false /\ mem "=" (encoded_char c) = false
  /\ mem " " (encoded_char c) = false /\ nonempty (encoded_char c) = true.
Proof. each_byte c; repeat split; reflexivity. Qed.

Lemma encoded_separators (s : string) :
  mem "&" (encoded s) = false /\ mem "=" (encoded s) = false
  /\ mem " " (encoded s) = false.
Proof.
  induction s as [|c s (IH1 & IH2 & IH3)]; simpl; [auto|].
  destruct (encoded_char_separators c) as (H1 & H2 & H3 & _).
  rewrite !mem_append, H1, H2, H3, IH1, IH2, IH3. auto.
Qed.

(** A byte is percent-encoded unless it is a letter, a digit, one of
    [_.-~], one of the four filter characters, or a space. *)
Lemma encoded_char_percent (c : ascii) :
  always_safe c = false -> mem c "+'() " = false -> encoded_char c = percent c.
Proof. each_byte c; intros H1 H2; try discriminate H1; try discriminate H2; reflexivity. Qed.

Lemma urlencode_encoded (params : list (string * string)) :
  urlencode params "+'()"
  = join "&" (map (fun kv => encoded (fst kv) ++ "=" ++ encoded (snd kv)) params).
Proof.
  unfold urlencode. f_equal.
  apply map_ext. intros [k v]. simpl. now rewrite !quote_plus_encoded.
Qed.

Lemma join_nonempty (sep x : string) (l : list string) :
  nonempty x = true -> nonempty (join sep (x :: l)) = true.
Proof.
  intros H. destruct l; simpl; [assumption|].
  destruct x; [discriminate | reflexivity].
Qed.

(** The query string is empty for the empty mapping only. *)
Lemma urlencode_nonempty (params : list (string * string)) (safe : string) :
  nonempty (urlencode params safe) = negb (match params with [] => true | _ => false end).
Proof.
  destruct params as [|[k v] params]; [reflexivity|].
  unfold urlencode. simpl map. rewrite join_nonempty; [reflexivity|].
  apply nonempty_append_r. reflexivity.
Qed.

End UrllibFacts.

(** ** The verbs *)

Section VerbFacts.

Variable backend : list Request -> Request -> answer.
Variable expected_content_type : headers -> string -> bool.


Lemma session_request_open m path kw c st :
  open_with c st ->
  let rq := {| rq_method := m; rq_base_url := cs_base_url c; rq_url := path;
               rq_ssl := ssl (self st); rq_kwargs := kw |} in
  session_request backend m path kw st =
  match backend (sent (world st)) rq with
  | Answer r => (Return (rq, r), logged rq st)
  | ConnectionFailure msg => (Raise (ClientConnectionError msg), logged rq st)
  end.
Proof.
  intros (id & Hs & Hc & Ho) rq. unfold session_request.
  rewrite Hs, Hc, Ho. reflexivity.
Qed.

Lemma session_request_no_client m path kw st :
  _session (self st) = IsNone \/ _session (self st) = Unset ->
  session_request backend m path kw st = (Raise AttributeError, st).
Proof. intros [H|H]; unfold session_request; now rewrite H. Qed.

Lemma respond_state rq r ct st :
  snd (respond expected_content_type rq r ct st) = st.
Proof.
  unfold respond, raise_for_status, json, loads_body, bind, raise, ret.
  destruct (400 <=? status r); simpl; [reflexivity|].
  destruct (match ct with Some _ => _ | None => _ end); simpl; [reflexivity|].
  destruct (body r); reflexivity.
Qed.

Lemma get_query_path (url : string) params (s : BaseSession) :
  (if nonempty (Urllib.urlencode params "+'()")
   then (endpoint s ++ url) ++ "?" ++ Urllib.urlencode params "+'()"
   else endpoint s ++ url)
  = endpoint s ++ (url ++ query_suffix params).
Proof.
  rewrite UrllibFacts.urlencode_nonempty.
  destruct params; simpl negb; cbv iota.
  - unfold query_suffix. now rewrite append_nil_r.
  - unfold query_suffix. now rewrite append_assoc.
Qed.

(** A verb on an open session sends one request, and what it returns is
    decided by the response alone. *)
Lemma verb_answered m url params ct kw c st r :
  open_with c st ->
  let rq := request_of m c st (relative m url params) kw in
  backend (sent (world st)) rq = Answer r ->
  verb backend expected_content_type m url params ct kw st = respond expected_content_type rq r ct (logged rq st).
Proof.
  intros Ho rq Hb.
  assert (Hreq : forall path,
            rq = request_of m c st path kw ->
            (rr <- session_request backend m (endpoint (self st) ++ path) kw ;;
             raise_for_status (fst rr) (snd rr) ;;;
             json expected_content_type (fst rr) (snd rr) ct) st
            = respond expected_content_type rq r ct (logged rq st)).
  { intros path E. unfold bind at 1.
    rewrite (session_request_open m _ kw c st Ho). cbv zeta.
    unfold request_of in E. rewrite <- E, Hb. reflexivity. }
  destruct m; simpl.
  - unfold get. rewrite get_query_path. now apply Hreq.
  - unfold post. apply Hreq. subst rq. unfold relative. now rewrite append_nil_r.
  - unfold delete. apply Hreq. subst rq. unfold relative. now rewrite append_nil_r.
Qed.

Lemma verb_connection_failure m url params ct kw c st msg :
  open_with c st ->
  let rq := request_of m c st (relative m url params) kw in
  backend (sent (world st)) rq = ConnectionFailure msg ->
  verb backend expected_content_type m url params ct kw st = (Raise (ClientConnectionError msg), logged rq st).
Proof.
  intros Ho rq Hb.
  assert (Hreq : forall path,
            rq = request_of m c st path kw ->
            (rr <- session_request backend m (endpoint (self st) ++ path) kw ;;
             raise_for_status (fst rr) (snd rr) ;;;
             json expected_content_type (fst rr) (snd rr) ct) st
            = (Raise (ClientConnectionError msg), logged rq st)).
  { intros path E. unfold bind at 1.
    rewrite (session_request_open m _ kw c st Ho). cbv zeta.
    unfold request_of in E. rewrite <- E, Hb. reflexivity. }
  destruct m; simpl.
  - unfold get. rewrite get_query_path. now apply Hreq.
  - unfold post. apply Hreq. subst rq. unfold relative. now rewrite append_nil_r.
  - unfold delete. apply Hreq. subst rq. unfold relative. now rewrite append_nil_r.
Qed.

(** Without a client the verb fails on the attribute and nothing is sent. *)
Lemma verb_no_client m url params ct kw st :
  _session (self st) = IsNone \/ _session (self st) = Unset ->
  verb backend expected_content_type m url params ct kw st = (Raise AttributeError, st).
Proof.
  intros H.
  destruct m; simpl;
    [unfold get | unfold post | unfold delete];
    unfold bind; now rewrite session_request_no_client.
Qed.

End VerbFacts.

(** ** What a call leaves alone *)

Lemma frame_refl st : frame st st.
Proof.
  split; try reflexivity.
  exists []. split; [now rewrite app_nil_r | constructor].
Qed.

Lemma frame_trans st1 st2 st3 : frame st1 st2 -> frame st2 st3 -> frame st1 st3.
Proof.
  intros [S1 C1 (n1 & E1 & F1)] [S2 C2 (n2 & E2 & F2)].
  split; [congruence | congruence |].
  exists (n1 ++ n2)%list. split.
  - now rewrite E2, E1, app_assoc.
  - apply Forall_app. split; [assumption|]. now rewrite S1 in F2.
Qed.

Lemma frame_logged rq st : prefixed (self st) rq -> frame st (logged rq st).
Proof.
  intros H. split; try reflexivity.
  exists [rq]. split; [reflexivity | now constructor].
Qed.

Lemma frame_sleep delay st : frame st (snd (sleep delay st)).
Proof. split; try reflexivity. exists []. simpl. now rewrite app_nil_r. Qed.

Lemma frame_print x st : frame st (snd (print x st)).
Proof. split; try reflexivity. exists []. simpl. now rewrite app_nil_r. Qed.

Create HintDb frame.

#[local] Hint Resolve frame_refl frame_logged frame_sleep frame_print : frame.

Section FrameFacts.

Variable backend : list Request -> Request -> answer.
Variable expected_content_type : headers -> string -> bool.


Lemma session_request_state m path kw st :
  snd (session_request backend m path kw st) = st
  \/ exists rq, rq_url rq = path /\ rq_method rq = m
                /\ snd (session_request backend m path kw st) = logged rq st.
Proof.
  unfold session_request.
  destruct (_session (self st)) as [| |id]; auto.
  destruct (nth_error (clients (world st)) id) as [c|]; auto.
  destruct (cs_closed c); auto.
  right. eexists. split; [|split]; cycle 2.
  - destruct (backend _ _); reflexivity.
  - reflexivity.
  - reflexivity.
Qed.

Lemma bind_state {A B : Type} (m : M A) (k : A -> M B) st :
  snd (bind m k st)
  = match m st with
    | (Return a, st1) => snd (k a st1)
    | (Raise _, st1) => st1
    end.
Proof. unfold bind. now destruct (m st) as [[a|e] st1]. Qed.

Lemma request_then_respond_state m path kw ct st :
  let st' := snd ((rr <- session_request backend m (endpoint (self st) ++ path) kw ;;
                   raise_for_status (fst rr) (snd rr) ;;;
                   json expected_content_type (fst rr) (snd rr) ct) st) in
  st' = st
  \/ exists rq, rq_url rq = endpoint (self st) ++ path /\ rq_method rq = m
                /\ st' = logged rq st.
Proof.
  cbv zeta. rewrite bind_state.
  destruct (session_request_state m (endpoint (self st) ++ path) kw st) as [H|(rq & Hu & Hm & H)];
    destruct (session_request backend m _ kw st) as [[[rq' r]|e] st1] eqn:E;
    simpl in H; subst st1.
  - left. apply (respond_state expected_content_type rq' r ct st).
  - now left.
  - right. exists rq. repeat split; try assumption.
    apply (respond_state expected_content_type rq' r ct (logged rq st)).
  - right. exists rq. now repeat split.
Qed.

(** A verb leaves the state as it is or adds one request under the
    endpoint. *)
Lemma verb_state m url params ct kw st :
  snd (verb backend expected_content_type m url params ct kw st) = st
  \/ exists rq, rq_url rq = endpoint (self st) ++ relative m url params
                /\ rq_method rq = m
                /\ snd (verb backend expected_content_type m url params ct kw st) = logged rq st.
Proof.
  destruct m; simpl.
  - unfold get. rewrite get_query_path.
    apply request_then_respond_state.
  - unfold post, relative. rewrite append_nil_r.
    apply request_then_respond_state.
  - unfold delete, relative. rewrite append_nil_r.
    apply request_then_respond_state.
Qed.

Lemma frame_verb m url params ct kw st :
  frame st (snd (verb backend expected_content_type m url params ct kw st)).
Proof.
  destruct (verb_state m url params ct kw st) as [H|(rq & Hu & _ & H)];
    rewrite H; auto with frame.
  apply frame_logged. eexists. exact Hu.
Qed.

Lemma frame_on_response_error error attempts st :
  frame st (snd (on_response_error error attempts st)).
Proof.
  unfold on_response_error, bind at 1.
  change (sleep 1 st) with (Return tt, snd (sleep 1 st)). cbv iota beta.
  eapply frame_trans; [apply frame_sleep|].
  destruct (negb (truthy_int (decrement attempts))); [|apply frame_refl].
  unfold bind, sys_exit, raise. simpl. split; try reflexivity.
  exists []. simpl. now rewrite app_nil_r.
Qed.

Lemma frame_get_token_pass email password kw attempts st :
  frame st (loop_state (get_token_pass backend expected_content_type
                   email password kw attempts st)).
Proof.
  unfold get_token_pass.
  destruct (truthy_int attempts); [|apply frame_refl].
  pose proof (frame_verb POST "/public/token" [] None
                (token_kwargs email password kw) st) as Hp.
  simpl in Hp.
  destruct (post backend expected_content_type _ None _ st) as [[v|e] st1];
    simpl in Hp; [exact Hp|].
  destruct (is_ClientResponseError e); [|exact Hp].
  pose proof (frame_on_response_error e attempts st1) as Hr.
  destruct (on_response_error e attempts st1) as [[a|e'] st2]; simpl in *;
    eapply frame_trans; eassumption.
Qed.

Lemma frame_token_loop_run fuel email password kw l st0 r st' :
  frame st0 (loop_state l) ->
  token_loop_run backend expected_content_type fuel email password kw l = Some (r, st') ->
  frame st0 st'.
Proof.
  revert l. induction fuel as [|fuel IH]; intros l Hl H.
  - destruct l; simpl in H; [discriminate|]. now inversion H; subst.
  - destruct l as [a st|r0 st]; simpl in H.
    + apply IH in H; [assumption|].
      pose proof (frame_get_token_pass email password kw a st) as Hp.
      destruct (get_token_pass _ _ _ _ _ _ _); simpl in *;
        eapply frame_trans; eassumption.
    + now inversion H; subst.
Qed.

Lemma frame_get_token fuel email password attempts kw st r st' :
  get_token backend expected_content_type fuel email password attempts kw st = Some (r, st') -> frame st st'.
Proof.
  apply frame_token_loop_run. apply frame_refl.
Qed.

Lemma subscript_list_state x st : snd (subscript_list x st) = st.
Proof.
  destruct x; try reflexivity. simpl.
  destruct (dict_get "list" d); reflexivity.
Qed.

Lemma subscript_0_state x st : snd (subscript_0 x st) = st.
Proof.
  destruct x as [| | |s|l|d]; try reflexivity; simpl.
  - destruct s; reflexivity.
  - destruct l; reflexivity.
Qed.

Lemma frame_get_task_by_consul_id consul_id ct kw st :
  frame st (snd (get_task_by_consul_id backend expected_content_type consul_id ct kw st)).
Proof.
  unfold get_task_by_consul_id, bind at 1.
  pose proof (frame_verb GET "/task"
                [("where", "consul_id+EQ+" ++ str_of_int consul_id)]
                (given ct application_json) kw st) as Hg.
  simpl in Hg.
  destruct (get backend expected_content_type _ _ _ _ st) as [[v|e] st1];
    simpl in Hg; [|exact Hg].
  unfold bind.
  pose proof (subscript_list_state v st1) as H1.
  destruct (subscript_list v st1) as [[w|e] st2]; simpl in H1; subst st2;
    [|exact Hg].
  now rewrite subscript_0_state.
Qed.

Lemma frame_total {A : Type} (m : M A) st r st' :
  (forall st0, frame st0 (snd (m st0))) -> total m st = Some (r, st') -> frame st st'.
Proof.
  intros Hm H. unfold total in H. inversion H as [E].
  specialize (Hm st). now rewrite E in Hm.
Qed.

(** Every call of the library keeps the session object and the clients,
    and every request it sends is under the endpoint. *)
Lemma frame_run_op fuel o st r st' :
  run_op backend expected_content_type fuel o st = Some (r, st') -> frame st st'.
Proof.
  destruct o; simpl; try apply frame_get_token;
    apply frame_total; intros st0.
  - exact (frame_verb GET _ params content_type kw st0).
  - exact (frame_verb POST _ [] content_type kw st0).
  - exact (frame_verb DELETE _ [] content_type kw st0).
  - exact (frame_verb POST _ [] (given content_type application_json) kw st0).
  - exact (frame_verb GET "/whoami" (given params [])
             (given content_type application_json) kw st0).
  - exact (frame_verb GET _ (given params [])
             (given content_type application_json) kw st0).
  - apply frame_get_task_by_consul_id.
  - exact (frame_verb POST "/host" [] (given content_type application_json) _ st0).
  - exact (frame_verb DELETE _ [] (given content_type application_json) kw st0).
  - exact (frame_verb POST _ [] (given content_type application_json) _ st0).
Qed.

Lemma frame_run_block fuel block last st r st' :
  run_block backend expected_content_type fuel block last st = Some (r, st') -> frame st st'.
Proof.
  revert last st. induction block as [|o block IH]; intros last st H; simpl in H.
  - inversion H; subst. apply frame_refl.
  - destruct (run_op backend expected_content_type fuel o st) as [[[v|e] st1]|] eqn:E; try discriminate.
    + eapply frame_trans; [eapply frame_run_op; eassumption|].
      eapply IH; eassumption.
    + inversion H; subst. eapply frame_run_op; eassumption.
Qed.

End FrameFacts.

(** ** Responses *)

Section ResponseFacts.

Variable expected_content_type : headers -> string -> bool.


Lemma respond_error rq r ct st :
  400 <= status r ->
  respond expected_content_type rq r ct st = (Raise (ClientResponseError (error_of rq r (reason r))), st).
Proof.
  intros H. unfold respond, raise_for_status, bind.
  apply Z.leb_le in H. now rewrite H.
Qed.

Lemma respond_ok rq r ct st :
  status r < 400 ->
  respond expected_content_type rq r ct st = json expected_content_type rq r ct st.
Proof.
  intros H. unfold respond, raise_for_status, bind.
  apply Z.leb_gt in H. now rewrite H.
Qed.

(** With no declared content type the header of the response is not
    looked at. *)
Lemma json_undeclared rq r st : json expected_content_type rq r None st = loads_body (body r) st.
Proof. reflexivity. Qed.

Lemma json_expected rq r ct st :
  expected_content_type (rs_headers r) ct = true ->
  json expected_content_type rq r (Some ct) st = loads_body (body r) st.
Proof.
  intros H. unfold json. rewrite H. simpl. now rewrite andb_false_r.
Qed.

Lemma json_unexpected rq r ct st :
  nonempty ct = true ->
  expected_content_type (rs_headers r) ct = false ->
  json expected_content_type rq r (Some ct) st
  = (Raise (ContentTypeError (mimetype_error_of rq r)), st).
Proof. intros H1 H2. unfold json. now rewrite H1, H2. Qed.

Lemma json_accepted rq r ct st :
  accepted expected_content_type (rs_headers r) ct ->
  json expected_content_type rq r ct st = loads_body (body r) st.
Proof.
  intros [->|[->|(t & -> & H)]].
  - reflexivity.
  - reflexivity.
  - unfold json. rewrite H. simpl. now rewrite andb_false_r.
Qed.

End ResponseFacts.

(** ** The token loop *)

Lemma after_refl st : after st st [] [] [].
Proof. unfold after. now rewrite !app_nil_r. Qed.

Lemma after_trans st1 st2 st3 q1 d1 o1 q2 d2 o2 :
  after st1 st2 q1 d1 o1 -> after st2 st3 q2 d2 o2 ->
  after st1 st3 (q1 ++ q2) (d1 ++ d2) (o1 ++ o2).
Proof.
  intros (S1 & C1 & Q1 & D1 & O1) (S2 & C2 & Q2 & D2 & O2).
  unfold after. rewrite S2, C2, Q2, D2, O2, S1, C1, Q1, D1, O1.
  now rewrite !app_assoc.
Qed.

Lemma after_open c st st' q d o : after st st' q d o -> open_with c st -> open_with c st'.
Proof.
  intros (S & C & _) (id & H1 & H2 & H3). exists id. now rewrite S, C.
Qed.

Lemma after_token_request c st st' q d o email password kw :
  after st st' q d o ->
  token_request c st' email password kw = token_request c st email password kw.
Proof.
  intros (S & _). unfold token_request, request_of. now rewrite S.
Qed.

Section TokenFacts.

Variable backend : list Request -> Request -> answer.
Variable expected_content_type : headers -> string -> bool.


Variables (email password : string) (kw : kwargs).

Lemma post_token c st r :
  open_with c st ->
  backend (sent (world st)) (token_request c st email password kw) = Answer r ->
  post backend expected_content_type "/public/token" None
    (token_kwargs email password kw) st
  = respond expected_content_type (token_request c st email password kw) r None
      (logged (token_request c st email password kw) st).
Proof.
  intros Ho Hb.
  exact (verb_answered backend expected_content_type POST "/public/token" []
           None (token_kwargs email password kw) c st r Ho Hb).
Qed.

(** A pass that finds no attempts left returns [None] and does nothing. *)
Lemma pass_no_attempts attempts st :
  truthy_int attempts = false ->
  get_token_pass backend expected_content_type email password kw attempts st = Finished (Return PNone) st.
Proof. intros H. unfold get_token_pass. now rewrite H. Qed.

(** A pass whose request is answered below 400 with a JSON body returns
    that body. *)
Lemma pass_success c st r j attempts :
  open_with c st ->
  truthy_int attempts = true ->
  backend (sent (world st)) (token_request c st email password kw) = Answer r ->
  status r < 400 ->
  body r = JsonBody j ->
  exists st',
    get_token_pass backend expected_content_type email password kw attempts st = Finished (Return j) st'
    /\ after st st' [token_request c st email password kw] [] [].
Proof.
  intros Ho Ht Hb Hs Hj.
  exists (logged (token_request c st email password kw) st). split.
  - unfold get_token_pass. rewrite Ht, (post_token c st r Ho Hb).
    rewrite respond_ok by assumption. rewrite json_undeclared, Hj. reflexivity.
  - unfold after. simpl. now rewrite !app_nil_r.
Qed.

(** A pass whose request is answered with 400 or more, with attempts left
    after it: one delay, one attempt less, back to the loop test. *)
Lemma pass_retry c st r n :
  open_with c st ->
  n <> 0 -> n - 1 <> 0 ->
  backend (sent (world st)) (token_request c st email password kw) = Answer r ->
  400 <= status r ->
  exists st',
    get_token_pass backend expected_content_type email password kw (Some n) st = Attempting (Some (n - 1)) st'
    /\ after st st' [token_request c st email password kw] [1] [].
Proof.
  intros Ho Hn Hn1 Hb Hs.
  eexists. split.
  - unfold get_token_pass. simpl truthy_int.
    apply Z.eqb_neq in Hn. rewrite Hn. simpl negb. cbv iota.
    rewrite (post_token c st r Ho Hb), respond_error by assumption.
    simpl is_ClientResponseError. cbv iota.
    unfold on_response_error, bind. simpl.
    apply Z.eqb_neq in Hn1. rewrite Hn1. simpl. reflexivity.
  - unfold after. simpl. now rewrite !app_nil_r.
Qed.

(** A pass whose request is answered with 400 or more on the last attempt:
    one delay, the error and the message are printed, the process exits
    with status 1. *)
Lemma pass_exhausted c st r :
  open_with c st ->
  backend (sent (world st)) (token_request c st email password kw) = Answer r ->
  400 <= status r ->
  exists st',
    get_token_pass backend expected_content_type email password kw (Some 1) st
    = Finished (Raise (exhausted_exit (token_request c st email password kw) r)) st'
    /\ after st st' [token_request c st email password kw] [1]
         (exhausted_output (token_request c st email password kw) r).
Proof.
  intros Ho Hb Hs.
  eexists. split.
  - unfold get_token_pass. simpl truthy_int. cbv iota.
    rewrite (post_token c st r Ho Hb), respond_error by assumption.
    simpl is_ClientResponseError. cbv iota.
    unfold on_response_error, bind. simpl. reflexivity.
  - unfold after, exhausted_output. simpl. repeat split; try reflexivity.
    now rewrite <- app_assoc.
Qed.

Lemma token_loop_run_finished fuel r st :
  token_loop_run backend expected_content_type fuel email password kw (Finished r st) = Some (r, st).
Proof. now destruct fuel. Qed.

Lemma token_loop_run_pass fuel attempts st :
  token_loop_run backend expected_content_type (S fuel) email password kw (Attempting attempts st)
  = token_loop_run backend expected_content_type fuel email password kw (get_token_pass backend expected_content_type email password kw attempts st).
Proof. reflexivity. Qed.

End TokenFacts.

(** ** Termination of the token loop *)

Section TokenTermination.

Variable backend : list Request -> Request -> answer.
Variable expected_content_type : headers -> string -> bool.
Variables (email password : string) (kw : kwargs).

(** A pass goes back to the loop test only with one attempt less, and only
    when that is not zero. *)
Lemma pass_attempting n st a st' :
  get_token_pass backend expected_content_type email password kw (Some n) st
  = Attempting a st' ->
  n <> 0 /\ a = Some (n - 1) /\ n - 1 <> 0.
Proof.
  unfold get_token_pass. simpl truthy_int.
  destruct (n =? 0) eqn:En; simpl negb; cbv iota; [discriminate|].
  apply Z.eqb_neq in En.
  destruct (post backend expected_content_type "/public/token" None
              (token_kwargs email password kw) st) as [[v|e] st1]; [discriminate|].
  destruct (is_ClientResponseError e); [|discriminate].
  unfold on_response_error, bind. simpl.
  destruct (n - 1 =? 0) eqn:E1; simpl; [discriminate|].
  apply Z.eqb_neq in E1.
  intros H. inversion H. now repeat split.
Qed.

(** With a number of attempts that is not negative the loop ends, after at
    most that many passes and one more loop test. *)
Lemma token_loop_terminates (k : nat) :
  forall n st, 0 <= n <= Z.of_nat k ->
    exists r st',
      token_loop_run backend expected_content_type (S k) email password kw
        (Attempting (Some n) st) = Some (r, st').
Proof.
  induction k as [|k IH]; intros n st Hn.
  - assert (n = 0) by lia. subst n. simpl. eauto.
  - rewrite token_loop_run_pass.
    destruct (get_token_pass backend expected_content_type email password kw
                (Some n) st) as [a st1|r st1] eqn:E.
    + apply pass_attempting in E as (H0 & -> & H1).
      apply IH. lia.
    + exists r, st1. apply token_loop_run_finished.
Qed.

Lemma get_token_terminates (n : Z) (st : State) :
  0 <= n ->
  exists r st',
    get_token backend expected_content_type (S (Z.to_nat n))
      email password (Some n) kw st = Some (r, st').
Proof.
  intros Hn. apply token_loop_terminates. lia.
Qed.

(** With a negative number of attempts and a backend that always answers
    with an error status, the loop test never fails: no amount of fuel
    reaches the end. *)
Lemma get_token_negative_attempts_runs_forever (c : ClientSession) :
  (forall history q, exists r, backend history q = Answer r /\ 400 <= status r) ->
  forall fuel n st,
    open_with c st -> n < 0 ->
    get_token backend expected_content_type fuel email password (Some n) kw st = None.
Proof.
  intros Hb fuel. unfold get_token.
  induction fuel as [|fuel IH]; intros n st Ho Hn; [reflexivity|].
  rewrite token_loop_run_pass.
  destruct (Hb (sent (world st)) (token_request c st email password kw))
    as (r & B & S).
  destruct (pass_retry backend expected_content_type email password kw c st r n)
    as (st1 & P & A); try assumption; try lia.
  rewrite P. apply IH; [|lia].
  exact (after_open c _ _ _ _ _ A Ho).
Qed.

End TokenTermination.

(** ** get_token *)

(** C1. [get_token] with [attempts=3] against a backend that answers 503
    to the first two POSTs of [/public/token] and 2xx with a JSON body to
    the third: the loop is at its test with 3, then 2, then 1 attempts
    left, each of the two failed passes adds one delay of one second and no
    pass adds another, three requests are sent, nothing is printed, and the
    decoded body of the third response is returned. *)
Theorem get_token_succeeds_on_third_attempt
    (backend : list Request -> Request -> answer)
    (expected_content_type : headers -> string -> bool)
    (email password : string) (kw : kwargs)
    (c : ClientSession) (st : State) (r1 r2 r3 : Response) (j : pyval) :
  let rq := token_request c st email password kw in
  open_with c st ->
  backend (sent (world st)) rq = Answer r1 -> status r1 = 503 ->
  backend (sent (world st) ++ [rq])%list rq = Answer r2 -> status r2 = 503 ->
  backend (sent (world st) ++ [rq; rq])%list rq = Answer r3 ->
  200 <= status r3 < 300 -> body r3 = JsonBody j ->
  exists st1 st2 st3,
    get_token_pass backend expected_content_type email password kw (Some 3) st
    = Attempting (Some 2) st1
    /\ after st st1 [rq] [1] []
    /\ get_token_pass backend expected_content_type email password kw (Some 2) st1
       = Attempting (Some 1) st2
    /\ after st st2 [rq; rq] [1; 1] []
    /\ get_token_pass backend expected_content_type email password kw (Some 1) st2
       = Finished (Return j) st3
    /\ after st st3 [rq; rq; rq] [1; 1] []
    /\ forall fuel, (3 <= fuel)%nat ->
         get_token backend expected_content_type fuel email password (Some 3) kw st
         = Some (Return j, st3).
Proof.
  intros rq Ho B1 S1 B2 S2 B3 S3 Hj.
  destruct (pass_retry backend expected_content_type email password kw c st r1 3)
    as (st1 & P1 & A1); try assumption; try lia.
  change (3 - 1) with 2 in P1.
  pose proof (after_open c _ _ _ _ _ A1 Ho) as Ho1.
  pose proof (after_token_request c _ _ _ _ _ email password kw A1) as Q1.
  destruct (pass_retry backend expected_content_type email password kw c st1 r2 2)
    as (st2 & P2 & A2'); try assumption; try lia.
  { rewrite Q1. destruct A1 as (_ & _ & E & _). now rewrite E. }
  change (2 - 1) with 1 in P2.
  rewrite Q1 in A2'.
  pose proof (after_trans _ _ _ _ _ _ _ _ _ A1 A2') as A2. simpl in A2.
  pose proof (after_open c _ _ _ _ _ A2 Ho) as Ho2.
  pose proof (after_token_request c _ _ _ _ _ email password kw A2) as Q2.
  destruct (pass_success backend expected_content_type email password kw c st2 r3 j (Some 1))
    as (st3 & P3 & A3'); try assumption; try reflexivity; try lia.
  { rewrite Q2. destruct A2 as (_ & _ & E & _). now rewrite E. }
  rewrite Q2 in A3'.
  pose proof (after_trans _ _ _ _ _ _ _ _ _ A2 A3') as A3. simpl in A3.
  exists st1, st2, st3. repeat (split; [assumption|]).
  intros fuel Hf.
  destruct fuel as [|[|[|fuel]]]; try lia.
  unfold get_token.
  rewrite token_loop_run_pass, P1, token_loop_run_pass, P2,
    token_loop_run_pass, P3.
  apply token_loop_run_finished.
Qed.

Lemma get_token_succeeds_on_third_attempt_witness :
  exists st3,
    get_token
      (Scenario.scripted [Scenario.unavailable; Scenario.unavailable]
         (Scenario.response 200 "OK" (JsonBody Scenario.token)))
      Scenario.first_header_is 3 "admin@example.com" "secret" (Some 3) []
      (Scenario.entered Scenario.auth)
    = Some (Return Scenario.token, st3)
    /\ sleeps (world st3) = [1; 1]
    /\ List.length (sent (world st3)) = 3%nat.
Proof.
  destruct (get_token_succeeds_on_third_attempt
              (Scenario.scripted [Scenario.unavailable; Scenario.unavailable]
                 (Scenario.response 200 "OK" (JsonBody Scenario.token)))
              Scenario.first_header_is "admin@example.com" "secret" []
              Scenario.the_client (Scenario.entered Scenario.auth)
              Scenario.unavailable Scenario.unavailable
              (Scenario.response 200 "OK" (JsonBody Scenario.token))
              Scenario.token)
    as (st1 & st2 & st3 & _ & _ & _ & _ & _ & A & H).
  - exists 0%nat. repeat split; reflexivity.
  - reflexivity.
  - reflexivity.
  - reflexivity.
  - reflexivity.
  - reflexivity.
  - simpl. lia.
  - reflexivity.
  - exists st3. split; [apply H; lia|].
    destruct A as (_ & _ & Q & D & _). rewrite Q, D. split; reflexivity.
Defined.

(** C2, as the code has it.  [get_token] with [attempts=2] against a
    backend that always answers 503: two POSTs are made; a delay of one
    second follows each of the two failed attempts (the second one after
    the last attempt, before the exit), so there are two delays; the last
    error and the message are printed, and the call does not return: it
    raises [SystemExit(1)], and that exit carries the error of the last
    response as its context. *)
Theorem get_token_exhausted_after_two_attempts
    (backend : list Request -> Request -> answer)
    (expected_content_type : headers -> string -> bool)
    (email password : string) (kw : kwargs)
    (c : ClientSession) (st : State) :
  let rq := token_request c st email password kw in
  open_with c st ->
  (forall history q, exists r, backend history q = Answer r /\ status r = 503) ->
  exists r2 st1 st2,
    backend (sent (world st) ++ [rq])%list rq = Answer r2
    /\ get_token_pass backend expected_content_type email password kw (Some 2) st
       = Attempting (Some 1) st1
    /\ after st st1 [rq] [1] []
    /\ get_token_pass backend expected_content_type email password kw (Some 1) st1
       = Finished (Raise (exhausted_exit rq r2)) st2
    /\ after st st2 [rq; rq] [1; 1] (exhausted_output rq r2)
    /\ forall fuel, (2 <= fuel)%nat ->
         get_token backend expected_content_type fuel email password (Some 2) kw st
         = Some (Raise (exhausted_exit rq r2), st2).
Proof.
  intros rq Ho Hb.
  destruct (Hb (sent (world st)) rq) as (r1 & B1 & S1).
  destruct (Hb (sent (world st) ++ [rq])%list rq) as (r2 & B2 & S2).
  destruct (pass_retry backend expected_content_type email password kw c st r1 2)
    as (st1 & P1 & A1); try assumption; try lia.
  change (2 - 1) with 1 in P1.
  pose proof (after_open c _ _ _ _ _ A1 Ho) as Ho1.
  pose proof (after_token_request c _ _ _ _ _ email password kw A1) as Q1.
  destruct (pass_exhausted backend expected_content_type email password kw c st1 r2)
    as (st2 & P2 & A2'); try assumption; try lia.
  { rewrite Q1. destruct A1 as (_ & _ & E & _). now rewrite E. }
  rewrite Q1 in A2', P2.
  pose proof (after_trans _ _ _ _ _ _ _ _ _ A1 A2') as A2. simpl in A2.
  exists r2, st1, st2. repeat (split; [assumption|]).
  intros fuel Hf.
  destruct fuel as [|[|fuel]]; try lia.
  unfold get_token.
  rewrite token_loop_run_pass, P1, token_loop_run_pass, P2.
  apply token_loop_run_finished.
Qed.

Lemma get_token_exhausted_after_two_attempts_witness :
  exists st2,
    get_token (Scenario.always Scenario.unavailable) Scenario.first_header_is
      2 "admin@example.com" "secret" (Some 2) [] (Scenario.entered Scenario.auth)
    = Some (Raise (exhausted_exit
                    (token_request Scenario.the_client (Scenario.entered Scenario.auth)
                       "admin@example.com" "secret" [])
                    Scenario.unavailable), st2)
    /\ sleeps (world st2) = [1; 1]
    /\ List.length (sent (world st2)) = 2%nat
    /\ List.length (stdout (world st2)) = 2%nat.
Proof.
  destruct (get_token_exhausted_after_two_attempts
              (Scenario.always Scenario.unavailable) Scenario.first_header_is
              "admin@example.com" "secret" []
              Scenario.the_client (Scenario.entered Scenario.auth))
    as (r2 & st1 & st2 & B & _ & _ & _ & A & H).
  - exists 0%nat. repeat split; reflexivity.
  - intros history q. exists Scenario.unavailable. split; [|reflexivity].
    unfold Scenario.always, Scenario.scripted.
    now destruct (List.length history) as [|[|n]].
  - injection B as B. subst r2.
    exists st2. split; [apply H; lia|].
    destruct A as (_ & _ & Q & D & O). rewrite Q, D, O. repeat split; reflexivity.
Defined.

(** C2, as the claim has it, fails: with [attempts=2] and a backend that
    always answers 503 the call sleeps twice, not once. *)
Lemma get_token_exhausted_sleeps_twice :
  exists st2,
    get_token (Scenario.always Scenario.unavailable) Scenario.first_header_is
      2 "admin@example.com" "secret" (Some 2) [] (Scenario.entered Scenario.auth)
    = Some (Raise (exhausted_exit
                    (token_request Scenario.the_client (Scenario.entered Scenario.auth)
                       "admin@example.com" "secret" [])
                    Scenario.unavailable), st2)
    /\ List.length (sent (world st2)) = 2%nat
    /\ sleeps (world st2) = [1; 1]
    /\ List.length (sleeps (world st2)) <> 1%nat.
Proof.
  eexists. split; [reflexivity|]. simpl. repeat split. discriminate.
Qed.

(** C10. [get_token] with [attempts=0]: the loop test fails at once; the
    call returns [None] and the state is the one it started from, so no
    request was sent, nothing slept, nothing was printed, and neither an
    error nor an exit was raised.  This holds whether or not the session
    was entered; [attempts=None] behaves the same. *)
Theorem get_token_zero_attempts
    (backend : list Request -> Request -> answer)
    (expected_content_type : headers -> string -> bool)
    (fuel : nat) (email password : string) (kw : kwargs) (st : State) :
  get_token_pass backend expected_content_type email password kw (Some 0) st
  = Finished (Return PNone) st
  /\ get_token backend expected_content_type (S fuel) email password (Some 0) kw st
     = Some (Return PNone, st)
  /\ get_token backend expected_content_type (S fuel) email password None kw st
     = Some (Return PNone, st).
Proof.
  repeat split.
  - unfold get_token. rewrite token_loop_run_pass.
    rewrite pass_no_attempts by reflexivity. apply token_loop_run_finished.
  - unfold get_token. rewrite token_loop_run_pass.
    rewrite pass_no_attempts by reflexivity. apply token_loop_run_finished.
Qed.

(** ** The contract of get, post and delete *)

(** On an open session a verb always sends its request. *)
Lemma verb_sends
    (backend : list Request -> Request -> answer)
    (expected_content_type : headers -> string -> bool)
    m url params ct kw c st :
  open_with c st ->
  snd (verb backend expected_content_type m url params ct kw st)
  = logged (request_of m c st (relative m url params) kw) st.
Proof.
  intros Ho.
  destruct (backend (sent (world st))
              (request_of m c st (relative m url params) kw)) as [r|msg] eqn:E.
  - rewrite (verb_answered backend expected_content_type m url params ct kw c st r Ho E).
    apply respond_state.
  - now rewrite (verb_connection_failure backend expected_content_type
                   m url params ct kw c st msg Ho E).
Qed.

(** C3, as the code has it.  For each of [get], [post], [delete] on an open
    session: a response with status 400 or more makes the call raise the
    [ClientResponseError] made of the request, the status, the reason (as
    message) and the headers of the response; the body of the response is
    not part of it.  A response with a status below 400 (so every status of
    [200,400)) makes the call return the decoded JSON body, when the
    declared content type is absent or empty or is the one the response
    has. *)
Theorem verb_status_contract
    (backend : list Request -> Request -> answer)
    (expected_content_type : headers -> string -> bool)
    (m : http_method) (url : string) (params : list (string * string))
    (ct : option string) (kw : kwargs)
    (c : ClientSession) (st : State) (r : Response) :
  let rq := request_of m c st (relative m url params) kw in
  open_with c st ->
  backend (sent (world st)) rq = Answer r ->
  (400 <= status r ->
   verb backend expected_content_type m url params ct kw st
   = (Raise (ClientResponseError
               {| request_info := rq; e_status := status r;
                  message := reason r; e_headers := rs_headers r |}),
      logged rq st))
  /\ (status r < 400 ->
      (ct = None \/ ct = Some ""
       \/ exists t, ct = Some t /\ expected_content_type (rs_headers r) t = true) ->
      forall j, body r = JsonBody j ->
      verb backend expected_content_type m url params ct kw st
      = (Return j, logged rq st)).
Proof.
  intros rq Ho Hb.
  rewrite (verb_answered backend expected_content_type m url params ct kw c st r Ho Hb).
  fold rq. split.
  - intros Hs. now rewrite respond_error.
  - intros Hs Hct j Hj. rewrite respond_ok by assumption.
    destruct Hct as [->| [->|(t & -> & Ht)]].
    + now rewrite json_undeclared, Hj.
    + unfold json. simpl. now rewrite Hj.
    + rewrite json_expected by assumption. now rewrite Hj.
Qed.

Lemma verb_status_contract_witness :
  (exists e st',
     verb (Scenario.always (Scenario.not_found (JsonBody Scenario.not_found_body)))
       Scenario.first_header_is DELETE "/host/7" [] application_json []
       (Scenario.entered Scenario.vm)
     = (Raise (ClientResponseError e), st')
     /\ e_status e = 404 /\ message e = "Not Found")
  /\ (exists st',
        verb (Scenario.always (Scenario.tasks []))
          Scenario.first_header_is GET "/task" [] application_json []
          (Scenario.entered Scenario.vm)
        = (Return (PDict [("list", PList [])]), st')).
Proof.
  split.
  - destruct (verb_status_contract
                (Scenario.always (Scenario.not_found (JsonBody Scenario.not_found_body)))
                Scenario.first_header_is DELETE "/host/7" [] application_json []
                Scenario.the_client (Scenario.entered Scenario.vm)
                (Scenario.not_found (JsonBody Scenario.not_found_body)))
      as [H _].
    + exists 0%nat. repeat split; reflexivity.
    + reflexivity.
    + eexists. eexists. split; [apply H; simpl; lia|]. split; reflexivity.
  - destruct (verb_status_contract
                (Scenario.always (Scenario.tasks []))
                Scenario.first_header_is GET "/task" [] application_json []
                Scenario.the_client (Scenario.entered Scenario.vm)
                (Scenario.tasks []))
      as [_ H].
    + exists 0%nat. repeat split; reflexivity.
    + reflexivity.
    + eexists. apply H.
      * simpl. lia.
      * right. right. exists "application/json". split; reflexivity.
      * reflexivity.
Defined.

(** C3, as the claim has it, fails on two counts.  The error raised for a
    404 is the same whatever the body of the response is, so the body
    cannot be read off the error; and a 200 response whose content type is
    not the declared one makes the call raise instead of returning the
    decoded body. *)
Lemma status_error_does_not_carry_body :
  (~ exists body_of : exn -> Body,
       forall m b e st',
         verb (Scenario.always (Scenario.not_found b)) Scenario.first_header_is
           m "/host" [] application_json [] (Scenario.entered Scenario.vm)
         = (Raise e, st') ->
         body_of e = b)
  /\ (forall m, exists e st',
        verb (Scenario.always Scenario.html_ok) Scenario.first_header_is
          m "/host" [] application_json [] (Scenario.entered Scenario.vm)
        = (Raise (ContentTypeError e), st')).
Proof.
  split.
  - intros (body_of & H).
    pose proof (H POST (JsonBody Scenario.not_found_body) _ _ eq_refl) as H1.
    pose proof (H POST EmptyBody _ _ eq_refl) as H2.
    cbv in H1, H2. rewrite H2 in H1. discriminate H1.
  - intros m. destruct m; eexists; eexists; reflexivity.
Qed.

(** ** Query parameters *)

(** C4, as the code has it.  In the query string of [get] the characters
    [+], ['], [(], [)] are kept as they are; a space is turned into a plus
    sign; letters, digits and [_.-~] are kept; every other byte, [&] and
    [=] among them, is percent-encoded, so the only [&] and [=] of the
    query string are the separators.  The query string is empty for the
    empty mapping only, and [get] appends a question mark and the query
    string to the path exactly when the query string is not empty. *)
Theorem query_encoding
    (backend : list Request -> Request -> answer)
    (expected_content_type : headers -> string -> bool)
    (url : string) (params : list (string * string))
    (ct : option string) (kw : kwargs) (c : ClientSession) (st : State) :
  open_with c st ->
  (forall s, Urllib.quote_plus s "+'()" = encoded s)
  /\ Urllib.urlencode params "+'()"
     = Urllib.join "&"
         (map (fun kv => encoded (fst kv) ++ "=" ++ encoded (snd kv)) params)
  /\ (forall a x b, encoded (a ++ String x b) = encoded a ++ encoded_char x ++ encoded b)
  /\ (encoded_char "+" = "+" /\ encoded_char "'" = "'"
      /\ encoded_char "(" = "(" /\ encoded_char ")" = ")")
  /\ (encoded_char " " = "+" /\ encoded_char "&" = "%26" /\ encoded_char "=" = "%3D")
  /\ (forall x, Urllib.always_safe x = false -> Urllib.mem x "+'() " = false ->
                encoded_char x = Urllib.percent x)
  /\ (forall s, Urllib.mem "&" (encoded s) = false /\ Urllib.mem "=" (encoded s) = false)
  /\ (Urllib.urlencode params "+'()" = "" <-> params = [])
  /\ sent (world (snd (get backend expected_content_type url params ct kw st)))
     = (sent (world st)
        ++ [request_of GET c st
              (url ++ if nonempty (Urllib.urlencode params "+'()")
                      then "?" ++ Urllib.urlencode params "+'()" else "") kw])%list.
Proof.
  intros Ho.
  split; [apply UrllibFacts.quote_plus_encoded|].
  split; [apply UrllibFacts.urlencode_encoded|].
  split.
  { intros a x b. rewrite UrllibFacts.encoded_append. reflexivity. }
  split; [repeat split|].
  split; [repeat split|].
  split; [apply UrllibFacts.encoded_char_percent|].
  split.
  { intros s. destruct (UrllibFacts.encoded_separators s) as (H1 & H2 & _). now split. }
  assert (Hne : nonempty (Urllib.urlencode params "+'()")
                = match params with [] => false | _ => true end).
  { rewrite UrllibFacts.urlencode_nonempty. now destruct params. }
  split.
  { destruct params as [|kv params].
    - split; reflexivity.
    - split; [|discriminate].
      intros E. rewrite E in Hne. discriminate Hne. }
  change (get backend expected_content_type url params ct kw st)
    with (verb backend expected_content_type GET url params ct kw st).
  rewrite (verb_sends backend expected_content_type GET url params ct kw c st Ho).
  simpl. unfold relative, query_suffix. rewrite Hne.
  now destruct params.
Qed.

Lemma query_encoding_witness :
  sent (world (snd (get (Scenario.always (Scenario.tasks [])) Scenario.first_header_is
                      "/task" [("where", "(name+CP+'a b')&x=1")] application_json []
                      (Scenario.entered Scenario.vm))))
  = [request_of GET Scenario.the_client (Scenario.entered Scenario.vm)
       "/task?where=(name+CP+'a+b')%26x%3D1" []].
Proof.
  destruct (query_encoding (Scenario.always (Scenario.tasks [])) Scenario.first_header_is
              "/task" [("where", "(name+CP+'a b')&x=1")] application_json []
              Scenario.the_client (Scenario.entered Scenario.vm))
    as (_ & _ & _ & _ & _ & _ & _ & _ & H).
  - exists 0%nat. repeat split; reflexivity.
  - rewrite H. reflexivity.
Defined.

(** C4, as the claim has it, fails: a space in a value is not
    percent-encoded, it becomes a plus sign, and so it reads like a plus
    sign that was kept. *)
Lemma space_becomes_plus_sign :
  Urllib.urlencode [("q", "a b")] "+'()" = "q=a+b"
  /\ Urllib.urlencode [("q", "a b")] "+'()" <> "q=a%20b"
  /\ Urllib.urlencode [("q", "a b")] "+'()" = Urllib.urlencode [("q", "a+b")] "+'()".
Proof. repeat split. discriminate. Qed.

(** ** Slashes *)

Lemma starts_with_slash_append (a b : string) :
  starts_with_slash (a ++ b)
  = if nonempty a then starts_with_slash a else starts_with_slash b.
Proof. now destruct a. Qed.

Lemma ends_with_slash_cons (x : ascii) (s : string) :
  ends_with_slash (String x s)
  = if nonempty s then ends_with_slash s else Ascii.eqb x "/".
Proof. now destruct s. Qed.

Lemma ends_with_slash_append (a b : string) :
  ends_with_slash (a ++ b)
  = if nonempty b then ends_with_slash b else ends_with_slash a.
Proof.
  induction a as [|x a IH].
  - simpl. now destruct b.
  - change (String x a ++ b) with (String x (a ++ b)).
    rewrite !ends_with_slash_cons, IH.
    destruct a as [|y a]; destruct b as [|z b]; reflexivity.
Qed.

Lemma double_slashes_append (a b : string) :
  double_slashes (a ++ b)
  = (double_slashes a + double_slashes b
     + if ends_with_slash a && starts_with_slash b then 1 else 0)%nat.
Proof.
  induction a as [|x a IH].
  - simpl. lia.
  - change (String x a ++ b) with (String x (a ++ b)).
    cbn [double_slashes]. rewrite IH, starts_with_slash_append, ends_with_slash_cons.
    destruct a as [|y a].
    + simpl. destruct (Ascii.eqb x "/"), (starts_with_slash b); simpl; lia.
    + simpl nonempty. cbv iota. lia.
Qed.

Lemma slash_free (s : string) :
  Urllib.mem "/" s = false ->
  double_slashes s = 0%nat /\ starts_with_slash s = false /\ ends_with_slash s = false.
Proof.
  induction s as [|x s IH]; intros H; [now repeat split|].
  change (Ascii.eqb "/" x || Urllib.mem "/" s = false) in H.
  apply orb_false_iff in H as [Hx Hs].
  destruct (IH Hs) as (D & S & E).
  rewrite Ascii.eqb_sym in Hx.
  cbn [double_slashes starts_with_slash].
  rewrite ends_with_slash_cons, Hx, D, E. simpl.
  repeat split. now destruct (nonempty s).
Qed.

(** An endpoint made of two segments has no double slash and no slash at
    its end. *)
Lemma endpoint_slashes (s : BaseSession) :
  segment (definition s) = true -> segment (version s) = true ->
  double_slashes (endpoint s) = 0%nat /\ ends_with_slash (endpoint s) = false.
Proof.
  unfold segment, endpoint.
  intros Hd Hv.
  apply andb_true_iff in Hd as [Nd Fd]. apply andb_true_iff in Hv as [Nv Fv].
  apply negb_true_iff in Fd, Fv.
  destruct (slash_free _ Fd) as (Dd & Sd & Ed).
  destruct (slash_free _ Fv) as (Dv & Sv & Ev).
  split.
  - rewrite !double_slashes_append, !starts_with_slash_append,
      Nd, Dd, Dv, Sd, Sv, Ed.
    reflexivity.
  - rewrite !ends_with_slash_append.
    assert (N1 : nonempty ("/" ++ version s) = true) by reflexivity.
    assert (N2 : nonempty (definition s ++ "/" ++ version s) = true)
      by now apply nonempty_append_r.
    now rewrite N2, N1, Nv.
Qed.

(** ** The request path *)

(** C5, as the code has it.  On an open session the path sent by each of
    [get], [post], [delete] is the endpoint followed by the relative path
    (and, for [get], by the query suffix), with nothing put in between;
    every request sent by any call of the library, the domain methods
    included, has a path that starts with the endpoint; and when the
    definition and the version are segments (not empty, no slash) the
    endpoint followed by the relative path has the double slashes of the
    relative path and no other. *)
Theorem request_path_is_endpoint_then_path
    (backend : list Request -> Request -> answer)
    (expected_content_type : headers -> string -> bool)
    (m : http_method) (p : string) (params : list (string * string))
    (ct : option string) (kw : kwargs) (c : ClientSession) (st : State) :
  open_with c st ->
  (exists rq,
     sent (world (snd (verb backend expected_content_type m p params ct kw st)))
     = (sent (world st) ++ [rq])%list
     /\ rq_method rq = m
     /\ rq_url rq = endpoint (self st) ++ p
                    ++ match m with GET => query_suffix params | _ => "" end)
  /\ (forall fuel o r st',
        run_op backend expected_content_type fuel o st = Some (r, st') ->
        exists new,
          sent (world st') = (sent (world st) ++ new)%list
          /\ Forall (fun rq => exists rest,
                       rq_url rq = endpoint (self st) ++ rest) new)
  /\ (segment (definition (self st)) = true ->
      segment (version (self st)) = true ->
      double_slashes (endpoint (self st) ++ p) = double_slashes p).
Proof.
  intros Ho. split; [|split].
  - rewrite (verb_sends backend expected_content_type m p params ct kw c st Ho).
    eexists. split; [reflexivity|]. split; reflexivity.
  - intros fuel o r st' H.
    destruct (frame_run_op backend expected_content_type fuel o st r st' H)
      as [_ _ (new & E & F)].
    exists new. split; assumption.
  - intros Hd Hv.
    destruct (endpoint_slashes (self st) Hd Hv) as [D E].
    rewrite double_slashes_append, D, E. simpl. lia.
Qed.

Lemma request_path_is_endpoint_then_path_witness :
  (exists rq,
     sent (world (snd (verb (Scenario.always (Scenario.tasks [])) Scenario.first_header_is
                         DELETE "/host//7" [] application_json []
                         (Scenario.entered Scenario.vm))))
     = [rq]
     /\ rq_url rq = "/vm/v3/host//7")
  /\ double_slashes ("/vm/v3" ++ "/host//7") = double_slashes "/host//7".
Proof.
  destruct (request_path_is_endpoint_then_path
              (Scenario.always (Scenario.tasks [])) Scenario.first_header_is
              DELETE "/host//7" [] application_json []
              Scenario.the_client (Scenario.entered Scenario.vm))
    as ((rq & Hs & _ & Hu) & _ & Hd).
  - exists 0%nat. repeat split; reflexivity.
  - split.
    + exists rq. split; [exact Hs | exact Hu].
    + apply Hd; reflexivity.
Defined.

(** C5, as the claim has it, fails: the endpoint and the relative path are
    put together as they are, so a version that ends with a slash and a
    relative path that starts with one give a double slash that neither
    of them has. *)
Lemma endpoint_and_path_can_make_double_slash :
  double_slashes (endpoint Scenario.vm_trailing_slash) = 0%nat
  /\ double_slashes "/host" = 0%nat
  /\ exists rq,
       sent (world (snd (post (Scenario.always (Scenario.tasks []))
                           Scenario.first_header_is "/host" application_json []
                           (Scenario.entered Scenario.vm_trailing_slash))))
       = [rq]
       /\ rq_url rq = "/vm/v3//host"
       /\ double_slashes (rq_url rq) = 1%nat.
Proof.
  split; [reflexivity|]. split; [reflexivity|].
  eexists. split; [reflexivity|]. split; reflexivity.
Qed.

(** ** Decimal numbers in paths and filters *)

Lemma encoded_uint (d : Decimal.uint) :
  encoded (NilEmpty.string_of_uint d) = NilEmpty.string_of_uint d.
Proof. induction d; simpl; try rewrite IHd; reflexivity. Qed.

(** The digits and the sign of an [int] are not changed by the encoding. *)
Lemma encoded_str_of_int (n : Z) : encoded (str_of_int n) = str_of_int n.
Proof.
  unfold str_of_int, NilZero.string_of_int, NilZero.string_of_uint.
  destruct (Z.to_int n) as [d|d]; destruct d; try reflexivity;
    cbn [encoded NilEmpty.string_of_uint]; now rewrite encoded_uint.
Qed.

Lemma to_int_proper (z : Z) :
  Z.to_int z <> Decimal.Pos Decimal.Nil /\ Z.to_int z <> Decimal.Neg Decimal.Nil.
Proof.
  destruct z as [|p|p]; simpl; split; try discriminate;
    intros H; injection H as H; now apply DecimalPos.Unsigned.to_uint_nonnil in H.
Qed.

(** The decimal text of an integer reads back as that integer. *)
Lemma str_of_int_read_back (z : Z) :
  option_map Z.of_int (NilZero.int_of_string (str_of_int z)) = Some z.
Proof.
  unfold str_of_int.
  destruct (to_int_proper z) as [H1 H2].
  rewrite NilZero.isi by assumption. simpl.
  now rewrite DecimalZ.of_to.
Qed.

Lemma str_of_int_injective (a b : Z) : str_of_int a = str_of_int b -> a = b.
Proof.
  intros H.
  pose proof (str_of_int_read_back a) as Ha.
  rewrite H, str_of_int_read_back in Ha. now inversion Ha.
Qed.

Lemma consul_id_query (n : Z) :
  relative GET "/task" [("where", "consul_id+EQ+" ++ str_of_int n)]
  = "/task?where=consul_id+EQ+" ++ str_of_int n.
Proof.
  unfold relative, query_suffix.
  rewrite UrllibFacts.urlencode_encoded. cbn [map Urllib.join fst snd].
  change ("consul_id+EQ+" ++ str_of_int n)
    with ("consul_id+EQ+" ++ str_of_int n)%string.
  rewrite UrllibFacts.encoded_append, encoded_str_of_int.
  reflexivity.
Qed.

(** ** Domain methods *)

(** C6. [get_task_by_consul_id] on an open session sends GET to
    [/task?where=consul_id+EQ+{consul_id}] under the endpoint, where the
    consul id is written in decimal (the text reads back as the id).  When
    the backend answers below 400 with a JSON object whose [list] member
    is a list, and the content type in force (the caller's [content_type]
    keyword, [application/json] without one) lets the body through, the
    call returns element 0 of that list, and raises [IndexError] when the
    list is empty; nothing in the method handles that error.  So
    [{list: [{id: 42}]}] gives [{id: 42}] and [{list: []}] gives the
    error. *)
Theorem get_task_by_consul_id_first_of_list
    (backend : list Request -> Request -> answer)
    (expected_content_type : headers -> string -> bool)
    (consul_id : Z) (ct : keyword (option string)) (kw : kwargs)
    (c : ClientSession) (st : State)
    (r : Response) (d : list (string * pyval)) (l : list pyval) :
  let rq := request_of GET c st
              ("/task?where=consul_id+EQ+" ++ str_of_int consul_id) kw in
  open_with c st ->
  backend (sent (world st)) rq = Answer r ->
  status r < 400 ->
  accepted expected_content_type (rs_headers r) (given ct application_json) ->
  body r = JsonBody (PDict d) ->
  dict_get "list" d = Some (PList l) ->
  get_task_by_consul_id backend expected_content_type consul_id ct kw st
  = (match l with
     | x :: _ => Return x
     | [] => Raise IndexError
     end, logged rq st)
  /\ option_map Z.of_int (NilZero.int_of_string (str_of_int consul_id))
     = Some consul_id.
Proof.
  intros rq Ho Hb Hs Hc Hj Hl.
  split; [|apply str_of_int_read_back].
  unfold get_task_by_consul_id, bind at 1.
  change (get backend expected_content_type "/task"
            [("where", "consul_id+EQ+" ++ str_of_int consul_id)]
            (given ct application_json) kw st)
    with (verb backend expected_content_type GET "/task"
            [("where", "consul_id+EQ+" ++ str_of_int consul_id)]
            (given ct application_json) kw st).
  rewrite (verb_answered backend expected_content_type GET "/task"
             [("where", "consul_id+EQ+" ++ str_of_int consul_id)]
             (given ct application_json) kw c st r Ho)
    by (rewrite consul_id_query; exact Hb).
  rewrite consul_id_query. fold rq.
  rewrite respond_ok by assumption.
  rewrite json_accepted by assumption.
  rewrite Hj.
  unfold bind. simpl. rewrite Hl. simpl.
  now destruct l.
Qed.

Lemma get_task_by_consul_id_first_of_list_witness :
  get_task_by_consul_id
    (Scenario.always (Scenario.tasks [PDict [("id", PInt 42)]]))
    Scenario.first_header_is 7 None [] (Scenario.entered Scenario.vm)
  = (Return (PDict [("id", PInt 42)]),
     logged {| rq_method := GET; rq_base_url := "https://vm.example.com";
               rq_url := "/vm/v3/task?where=consul_id+EQ+7";
               rq_ssl := Some true; rq_kwargs := [] |}
       (Scenario.entered Scenario.vm))
  /\ fst (get_task_by_consul_id (Scenario.always (Scenario.tasks []))
            Scenario.first_header_is (-3) (Some None) [] (Scenario.entered Scenario.vm))
     = Raise IndexError
  /\ NilZero.int_of_string (str_of_int (-3)) = Some (Z.to_int (-3)).
Proof.
  split; [|split].
  - destruct (get_task_by_consul_id_first_of_list
                (Scenario.always (Scenario.tasks [PDict [("id", PInt 42)]]))
                Scenario.first_header_is 7 None []
                Scenario.the_client (Scenario.entered Scenario.vm)
                (Scenario.tasks [PDict [("id", PInt 42)]])
                [("list", PList [PDict [("id", PInt 42)]])]
                [PDict [("id", PInt 42)]]) as [H _].
    + exists 0%nat. repeat split; reflexivity.
    + reflexivity.
    + simpl. lia.
    + right. right. exists "application/json". split; reflexivity.
    + reflexivity.
    + reflexivity.
    + rewrite H. reflexivity.
  - destruct (get_task_by_consul_id_first_of_list
                (Scenario.always (Scenario.tasks []))
                Scenario.first_header_is (-3) (Some None) []
                Scenario.the_client (Scenario.entered Scenario.vm)
                (Scenario.tasks []) [("list", PList [])] []) as [H _].
    + exists 0%nat. repeat split; reflexivity.
    + reflexivity.
    + simpl. lia.
    + left. reflexivity.
    + reflexivity.
    + reflexivity.
    + rewrite H. reflexivity.
  - reflexivity.
Defined.





(** ** The connection context *)

Lemma update_nth_last {A : Type} (f : A -> A) (l : list A) (x : A) :
  update_nth (List.length l) f (l ++ [x]) = (l ++ [f x])%list.
Proof. induction l as [|y l IH]; simpl; [reflexivity | now rewrite IH]. Qed.

Lemma nth_error_last {A : Type} (l : list A) (x : A) :
  nth_error (l ++ [x]) (List.length l) = Some x.
Proof. induction l as [|y l IH]; simpl; [reflexivity | exact IH]. Qed.

Lemma nth_error_other {A : Type} (l : list A) (x : A) (j : nat) :
  j <> List.length l -> nth_error (l ++ [x]) j = nth_error l j.
Proof.
  revert j. induction l as [|y l IH]; intros j Hj; simpl in *.
  - destruct j as [|j]; [contradiction|]. now destruct j.
  - destruct j as [|j]; [reflexivity|]. simpl. apply IH. congruence.
Qed.

Lemma aenter_opens st :
  aenter st = (Return tt, snd (aenter st))
  /\ open_with (new_client (self st)) (snd (aenter st))
  /\ _session (self (snd (aenter st))) = Client (List.length (clients (world st)))
  /\ clients (world (snd (aenter st)))
     = (clients (world st) ++ [new_client (self st)])%list.
Proof.
  split; [reflexivity|]. split; [|split; reflexivity].
  exists (List.length (clients (world st))). split; [reflexivity|].
  split; [|reflexivity]. simpl. apply nth_error_last.
Qed.

(** C8. The connection context is scoped by [async with] around any block
    of calls of the library.  Entry creates a new client on the base URL,
    which is open for the block.  When the block ends, by returning or by
    raising, the exit runs and the statement ends the way the block did;
    the client of this entry is then closed, [close] was called on it
    once, no other client was touched, and the session holds no client:
    every verb now raises [AttributeError] and sends nothing, and a second
    exit raises too, without closing anything. *)
Theorem connection_context_is_scoped
    (backend : list Request -> Request -> answer)
    (expected_content_type : headers -> string -> bool)
    (fuel : nat) (block : list op) (st : State) (r : result pyval) (st2 : State) :
  let id := List.length (clients (world st)) in
  run_block backend expected_content_type fuel block PNone (snd (aenter st))
  = Some (r, st2) ->
  aenter st = (Return tt, snd (aenter st))
  /\ open_with (new_client (self st)) (snd (aenter st))
  /\ nth_error (clients (world st)) id = None
  /\ nth_error (clients (world st2)) id = Some (new_client (self st))
  /\ exists st',
       async_with_block backend expected_content_type fuel block st = Some (r, st')
       /\ nth_error (clients (world st')) id = Some (closed_once (self st))
       /\ (forall j, j <> id ->
             nth_error (clients (world st')) j = nth_error (clients (world st)) j)
       /\ sent (world st') = sent (world st2)
       /\ _session (self st') = IsNone
       /\ (forall m url params ct kw,
             verb backend expected_content_type m url params ct kw st'
             = (Raise AttributeError, st'))
       /\ aexit st' = (Raise AttributeError, st').
Proof.
  intros id Hb. subst id.
  destruct (aenter_opens st) as (He & Ho & Hs & Hc).
  destruct (frame_run_block backend expected_content_type fuel block PNone
              _ r st2 Hb) as [Fs Fc _].
  rewrite Hc in Fc.
  split; [exact He|]. split; [exact Ho|].
  split; [apply nth_error_None; lia|].
  split; [rewrite Fc; apply nth_error_last|].
  eexists. split.
  - unfold async_with_block. rewrite He, Hb.
    unfold aexit. rewrite Fs, Hs. reflexivity.
  - simpl. rewrite Fc, update_nth_last.
    split; [apply nth_error_last|].
    split.
    { intros j Hj. now apply nth_error_other. }
    split; [reflexivity|]. split; [reflexivity|].
    split; [|reflexivity].
    intros m url params ct kw. apply verb_no_client. now left.
Qed.

Lemma connection_context_is_scoped_witness :
  exists e st',
    async_with_block
      (Scenario.always (Scenario.not_found (JsonBody Scenario.not_found_body)))
      Scenario.first_header_is 1 [OpWhoami None None []; OpGetTask 3 None None []]
      (Scenario.fresh Scenario.auth)
    = Some (Raise (ClientResponseError e), st')
    /\ nth_error (clients (world st')) 0 = Some (closed_once Scenario.auth)
    /\ _session (self st') = IsNone.
Proof.
  destruct (connection_context_is_scoped
              (Scenario.always (Scenario.not_found (JsonBody Scenario.not_found_body)))
              Scenario.first_header_is 1 [OpWhoami None None []; OpGetTask 3 None None []]
              (Scenario.fresh Scenario.auth)
              (Raise (ClientResponseError
                        (error_of (request_of GET Scenario.the_client
                                     (Scenario.entered Scenario.auth) "/whoami" [])
                           (Scenario.not_found (JsonBody Scenario.not_found_body))
                           "Not Found")))
              (logged (request_of GET Scenario.the_client
                         (Scenario.entered Scenario.auth) "/whoami" [])
                 (Scenario.entered Scenario.auth)))
    as (_ & _ & _ & _ & st' & H & Hc & _ & _ & Hs & _).
  - reflexivity.
  - eexists. exists st'. split; [exact H|]. split; [exact Hc | exact Hs].
Defined.

(** ** The configuration *)

(** C9. Every call of the library, a verb or a domain method, ends with
    the url, the definition, the version, the TLS flag and the transport
    options the session was built with, and so do entry and exit; the
    endpoint is [/{definition}/{version}] of the values given to the
    constructor. *)
Theorem configuration_is_immutable
    (backend : list Request -> Request -> answer)
    (expected_content_type : headers -> string -> bool)
    (fuel : nat) (o : op) (st : State) (r : result pyval) (st' : State) :
  run_op backend expected_content_type fuel o st = Some (r, st') ->
  configuration (self st') = configuration (self st)
  /\ endpoint (self st') = "/" ++ definition (self st) ++ "/" ++ version (self st)
  /\ configuration (self (snd (aenter st))) = configuration (self st)
  /\ configuration (self (snd (aexit st))) = configuration (self st)
  /\ (forall u d v s k,
        configuration (BaseSession_init u d v s k) = (u, d, v, s, k)
        /\ endpoint (BaseSession_init u d v s k) = "/" ++ d ++ "/" ++ v).
Proof.
  intros H.
  destruct (frame_run_op backend expected_content_type fuel o st r st' H)
    as [Fs _ _].
  split; [now rewrite Fs|]. split; [now rewrite Fs|].
  split; [reflexivity|]. split.
  - unfold aexit. now destruct (_session (self st)).
  - intros u d v s k. split; reflexivity.
Qed.

Lemma configuration_is_immutable_witness :
  exists r st',
    run_op (Scenario.always Scenario.unavailable) Scenario.first_header_is 2
      (OpGetToken "admin@example.com" "secret" (Some 2) [])
      (Scenario.entered Scenario.auth)
    = Some (r, st')
    /\ configuration (self st')
       = ("https://vm.example.com", "auth", "v4", Some true, []).
Proof.
  eexists. eexists. split; [reflexivity|].
  refine (eq_trans
            (proj1 (configuration_is_immutable
                      (Scenario.always Scenario.unavailable)
                      Scenario.first_header_is 2
                      (OpGetToken "admin@example.com" "secret" (Some 2) [])
                      (Scenario.entered Scenario.auth) _ _ eq_refl))
            _).
  reflexivity.
Defined.

(** * Further properties *)

(** ** What a verb can end with *)

Section Outcomes.

Variable backend : list Request -> Request -> answer.
Variable expected_content_type : headers -> string -> bool.

(** A verb either fails before anything is sent, on the attribute or on a
    closed client, or it sends one request; it never ends in a process
    exit. *)
Lemma verb_outcome m url params ct kw st :
  (snd (verb backend expected_content_type m url params ct kw st) = st
   /\ (fst (verb backend expected_content_type m url params ct kw st) = Raise AttributeError
       \/ fst (verb backend expected_content_type m url params ct kw st) = Raise RuntimeError))
  \/ (exists c,
        open_with c st
        /\ snd (verb backend expected_content_type m url params ct kw st)
           = logged (request_of m c st (relative m url params) kw) st
        /\ not_exit (fst (verb backend expected_content_type m url params ct kw st))).
Proof.
  destruct (_session (self st)) as [| |id] eqn:Es.
  - left. rewrite verb_no_client by (now right). auto.
  - left. rewrite verb_no_client by (now left). auto.
  - destruct (nth_error (clients (world st)) id) as [c|] eqn:Ec.
    + destruct (cs_closed c) eqn:Eo.
      * left.
        assert (H : forall path, session_request backend m path kw st
                                 = (Raise RuntimeError, st)).
        { intros path. unfold session_request. now rewrite Es, Ec, Eo. }
        destruct m; simpl; unfold get, post, delete, bind; rewrite H; auto.
      * right. exists c.
        assert (Ho : open_with c st) by (exists id; auto).
        split; [exact Ho|]. split; [now apply verb_sends|].
        destruct (backend (sent (world st))
                    (request_of m c st (relative m url params) kw)) as [r|msg] eqn:E.
        -- rewrite (verb_answered backend expected_content_type
                      m url params ct kw c st r Ho E).
           unfold respond, raise_for_status, json, loads_body, bind, raise, ret.
           destruct (400 <=? status r); simpl; [exact I|].
           destruct (match ct with Some _ => _ | None => _ end); simpl; [exact I|].
           destruct (body r); exact I.
        -- rewrite (verb_connection_failure backend expected_content_type
                      m url params ct kw c st msg Ho E).
           exact I.
    + left.
      assert (H : forall path, session_request backend m path kw st
                               = (Raise RuntimeError, st)).
      { intros path. unfold session_request. now rewrite Es, Ec. }
      destruct m; simpl; unfold get, post, delete, bind; rewrite H; auto.
Qed.

End Outcomes.

(** ** Accounts of the token loop *)

Lemma open_with_unique c c' st : open_with c st -> open_with c' st -> c = c'.
Proof.
  intros (i & Hi & Hc & _) (i' & Hi' & Hc' & _).
  rewrite Hi in Hi'. inversion Hi'; subst. congruence.
Qed.

Lemma after_logged rq st : after st (logged rq st) [rq] [] [].
Proof. unfold after. simpl. now rewrite !app_nil_r. Qed.

Section TokenAccounts.

Variable backend : list Request -> Request -> answer.
Variable expected_content_type : headers -> string -> bool.
Variables (email password : string) (kw : kwargs).

(** What one pass adds: at most one request, and none when there is no
    attempt left; a delay of one second exactly when it goes back to the
    loop test or exits; output only when it exits, and it exits only on
    the last attempt. *)
Lemma pass_account n st :
  exists q d o,
    after st (loop_state (get_token_pass backend expected_content_type
                            email password kw (Some n) st)) q d o
    /\ (q = [] \/ exists c, open_with c st /\ q = [token_request c st email password kw])
    /\ (n = 0 -> q = [])
    /\ match get_token_pass backend expected_content_type email password kw (Some n) st with
       | Attempting a _ =>
           n <> 0 /\ a = Some (n - 1) /\ n - 1 <> 0
           /\ List.length q = 1%nat /\ d = [1] /\ o = []
       | Finished (Raise (SystemExit code _)) _ =>
           code = 1 /\ n = 1
           /\ List.length q = 1%nat /\ d = [1] /\ List.length o = 2%nat
       | Finished _ _ => d = [] /\ o = []
       end.
Proof.
  unfold get_token_pass. simpl truthy_int.
  destruct (n =? 0) eqn:En; simpl negb; cbv iota.
  { exists [], [], []. split; [apply after_refl|]. split; [now left|]. now repeat split. }
  apply Z.eqb_neq in En.
  pose proof (verb_outcome backend expected_content_type POST "/public/token" []
                None (token_kwargs email password kw) st) as Hv.
  simpl verb in Hv.
  destruct (post backend expected_content_type "/public/token" None
              (token_kwargs email password kw) st) as [res st1].
  simpl in Hv.
  destruct Hv as [[-> [->| ->]]|(c & Ho & -> & Hx)].
  - exists [], [], []. split; [apply after_refl|]. split; [now left|]. now repeat split.
  - exists [], [], []. split; [apply after_refl|]. split; [now left|]. now repeat split.
  - change (request_of POST c st (relative POST "/public/token" [])
              (token_kwargs email password kw))
      with (token_request c st email password kw) in *.
    set (rq := token_request c st email password kw).
    assert (Hq : [rq] = [] \/ exists c0, open_with c0 st
                                          /\ [rq] = [token_request c0 st email password kw])
      by (right; exists c; now split).
    assert (Hz : n = 0 -> [rq] = []) by (intros; contradiction).
    destruct res as [v|e].
    + exists [rq], [], []. split; [apply after_logged|]. now repeat split.
    + destruct (is_ClientResponseError e) eqn:Ee.
      * unfold on_response_error, bind. simpl.
        destruct (n - 1 =? 0) eqn:E1; simpl.
        -- apply Z.eqb_eq in E1.
           exists [rq], [1], [PrintExn e; PrintStr exhausted_message].
           split.
           { unfold after. simpl. rewrite <- app_assoc. now repeat split. }
           split; [exact Hq|]. split; [exact Hz|]. repeat split. lia.
        -- apply Z.eqb_neq in E1.
           exists [rq], [1], [].
           split.
           { unfold after. simpl. rewrite !app_nil_r. now repeat split. }
           split; [exact Hq|]. split; [exact Hz|]. now repeat split.
      * exists [rq], [], []. split; [apply after_logged|].
        split; [exact Hq|]. split; [exact Hz|].
        destruct e; now split.
Qed.

(** The account of a whole run that ends. *)
Lemma token_loop_account (fuel : nat) :
  forall n st r st',
    token_loop_run backend expected_content_type fuel email password kw
      (Attempting (Some n) st) = Some (r, st') ->
    exists q d o,
      after st st' q d o
      /\ d = repeat 1 (List.length d)
      /\ (List.length d <= List.length q <= S (List.length d))%nat
      /\ (0 <= n -> (List.length q <= Z.to_nat n)%nat)
      /\ (forall c, open_with c st ->
            q = repeat (token_request c st email password kw) (List.length q))
      /\ match r with
         | Raise (SystemExit code _) =>
             code = 1 /\ 0 < n
             /\ List.length q = Z.to_nat n /\ List.length d = Z.to_nat n
             /\ List.length o = 2%nat
         | _ => o = []
         end.
Proof.
  induction fuel as [|fuel IH]; intros n st r st' H; [discriminate|].
  rewrite token_loop_run_pass in H.
  destruct (pass_account n st) as (q1 & d1 & o1 & A1 & Q1 & Z1 & P1).
  assert (Hrep : forall c, open_with c st ->
            q1 = repeat (token_request c st email password kw) (List.length q1)).
  { intros c Hc. destruct Q1 as [->|(c0 & Hc0 & ->)]; [reflexivity|].
    now rewrite (open_with_unique c c0 st Hc Hc0). }
  assert (L1 : (List.length q1 <= 1)%nat)
    by (destruct Q1 as [->|(c0 & _ & ->)]; simpl; lia).
  assert (B1 : 0 <= n -> (List.length q1 <= Z.to_nat n)%nat).
  { intros Hn. destruct (Z.eq_dec n 0) as [E|E].
    - rewrite (Z1 E). simpl. lia.
    - lia. }
  destruct (get_token_pass backend expected_content_type email password kw (Some n) st)
    as [a st1|r1 st1].
  - destruct P1 as (Hn & -> & Hn1 & Lq & -> & ->).
    simpl in A1.
    apply IH in H as (q2 & d2 & o2 & A2 & D2 & L2 & B2 & R2 & X2).
    exists (q1 ++ q2)%list, ([1] ++ d2)%list, ([] ++ o2)%list.
    split; [exact (after_trans _ _ _ _ _ _ _ _ _ A1 A2)|].
    rewrite !length_app, Lq. simpl List.length.
    split; [simpl; now rewrite <- D2|].
    split; [lia|].
    split; [intros; assert (List.length q2 <= Z.to_nat (n - 1))%nat by (apply B2; lia); lia|].
    split.
    { intros c Hc.
      pose proof (R2 c (after_open c _ _ _ _ _ A1 Hc)) as E2.
      rewrite (after_token_request c _ _ _ _ _ email password kw A1) in E2.
      pose proof (Hrep c Hc) as E1. rewrite Lq in E1.
      rewrite repeat_app. f_equal; [exact E1 | exact E2]. }
    simpl app.
    destruct r as [v|e]; [exact X2|].
    destruct e; try exact X2.
    destruct X2 as (-> & Hp & Xq & Xd & Xo).
    repeat split; try assumption; lia.
  - rewrite token_loop_run_finished in H. inversion H; subst r1 st1. clear H.
    simpl in A1.
    exists q1, d1, o1. split; [exact A1|].
    destruct r as [v|e].
    + destruct P1 as (-> & ->). simpl.
      split; [reflexivity|]. split; [lia|].
      split; [exact B1|]. split; [exact Hrep | reflexivity].
    + destruct e;
        try (destruct P1 as (-> & ->); simpl;
             split; [reflexivity|]; split; [lia|];
             split; [exact B1|]; split; [exact Hrep | reflexivity]).
      destruct P1 as (-> & -> & Lq & -> & Lo).
      split; [reflexivity|]. split; [simpl; lia|].
      split; [intros; lia|]. split; [exact Hrep|].
      repeat split; try lia; try (rewrite Lq; reflexivity); exact Lo.
Qed.

End TokenAccounts.

(** ** Runs of the token loop against a given backend *)

Section TokenRuns.

Variable backend : list Request -> Request -> answer.
Variable expected_content_type : headers -> string -> bool.
Variables (email password : string) (kw : kwargs).
Variable c : ClientSession.

(** [k] failed attempts in a row, with attempts left after each: [k]
    requests, [k] delays, and the loop is back at its test with [k]
    attempts less. *)
Lemma token_loop_failures (k : nat) :
  forall n st,
    open_with c st ->
    (n < 0 \/ Z.of_nat k < n) ->
    (forall i, (i < k)%nat ->
       exists r,
         backend (sent (world st) ++ repeat (token_request c st email password kw) i)%list
           (token_request c st email password kw) = Answer r
         /\ 400 <= status r) ->
    exists st1,
      after st st1 (repeat (token_request c st email password kw) k) (repeat 1 k) []
      /\ forall fuel,
           token_loop_run backend expected_content_type (k + fuel) email password kw
             (Attempting (Some n) st)
           = token_loop_run backend expected_content_type fuel email password kw
               (Attempting (Some (n - Z.of_nat k)) st1).
Proof.
  induction k as [|k IH]; intros n st Ho Hn Hb.
  - exists st. split; [apply after_refl|].
    intros fuel. simpl. now rewrite Z.sub_0_r.
  - destruct (Hb 0%nat ltac:(lia)) as (r & B & Hs).
    simpl repeat in B. rewrite app_nil_r in B.
    destruct (pass_retry backend expected_content_type email password kw c st r n)
      as (st0 & P & A0); try assumption; try lia.
    pose proof (after_open c _ _ _ _ _ A0 Ho) as Ho0.
    pose proof (after_token_request c _ _ _ _ _ email password kw A0) as Q0.
    destruct (IH (n - 1) st0 Ho0 ltac:(lia)) as (st1 & A1 & R1).
    { intros i Hi. rewrite Q0.
      destruct A0 as (_ & _ & E & _). rewrite E, <- app_assoc.
      apply (Hb (S i)). lia. }
    rewrite Q0 in A1.
    exists st1. split.
    + exact (after_trans _ _ _ _ _ _ _ _ _ A0 A1).
    + intros fuel.
      change (S k + fuel)%nat with (S (k + fuel)).
      rewrite token_loop_run_pass, P, R1.
      now replace (n - 1 - Z.of_nat k) with (n - Z.of_nat (S k)) by lia.
Qed.

End TokenRuns.

(** ** get_token: further properties *)

(** X1. [get_token] with [attempts = k + 1] on an open session, when the
    backend answers each of the [k + 1] token requests with a status of
    400 or more (any such status, not only 503): [k + 1] requests are sent
    and [k + 1] delays of one second are made, the error of the last
    response and the message are printed, and [SystemExit(1)] is raised. *)
Theorem get_token_exhausts_all_attempts
    (backend : list Request -> Request -> answer)
    (expected_content_type : headers -> string -> bool)
    (email password : string) (kw : kwargs)
    (c : ClientSession) (st : State) (k : nat) :
  let rq := token_request c st email password kw in
  open_with c st ->
  (forall i, (i <= k)%nat ->
     exists r, backend (sent (world st) ++ repeat rq i)%list rq = Answer r
               /\ 400 <= status r) ->
  exists r st',
    backend (sent (world st) ++ repeat rq k)%list rq = Answer r
    /\ after st st' (repeat rq (S k)) (repeat 1 (S k)) (exhausted_output rq r)
    /\ forall fuel, (S k <= fuel)%nat ->
         get_token backend expected_content_type fuel email password
           (Some (Z.of_nat (S k))) kw st
         = Some (Raise (exhausted_exit rq r), st').
Proof.
  intros rq Ho Hb.
  destruct (token_loop_failures backend expected_content_type email password kw c
              k (Z.of_nat (S k)) st Ho ltac:(lia)) as (st1 & A1 & R1).
  { intros i Hi. apply Hb. lia. }
  fold rq in A1.
  pose proof (after_open c _ _ _ _ _ A1 Ho) as Ho1.
  pose proof (after_token_request c _ _ _ _ _ email password kw A1) as Q1.
  destruct (Hb k (Nat.le_refl k)) as (r & B & Hs).
  destruct (pass_exhausted backend expected_content_type email password kw c st1 r)
    as (st2 & P & A2); try assumption.
  { rewrite Q1. destruct A1 as (_ & _ & E & _). now rewrite E. }
  rewrite Q1 in A2, P. fold rq in A2, P.
  exists r, st2. split; [exact B|]. split.
  - pose proof (after_trans _ _ _ _ _ _ _ _ _ A1 A2) as A.
    rewrite <- !repeat_cons in A. exact A.
  - intros fuel Hf. unfold get_token.
    replace fuel with (k + S (fuel - S k))%nat by lia.
    rewrite R1.
    replace (Z.of_nat (S k) - Z.of_nat k) with 1 by lia.
    rewrite token_loop_run_pass, P. apply token_loop_run_finished.
Qed.

Lemma get_token_exhausts_all_attempts_witness :
  exists st',
    get_token (Scenario.always Backends.unauthorized) Scenario.first_header_is
      4 "admin@example.com" "wrong" (Some 4) [] (Scenario.entered Scenario.auth)
    = Some (Raise (exhausted_exit
                    (token_request Scenario.the_client (Scenario.entered Scenario.auth)
                       "admin@example.com" "wrong" [])
                    Backends.unauthorized), st')
    /\ sleeps (world st') = [1; 1; 1; 1]
    /\ List.length (sent (world st')) = 4%nat.
Proof.
  destruct (get_token_exhausts_all_attempts
              (Scenario.always Backends.unauthorized) Scenario.first_header_is
              "admin@example.com" "wrong" []
              Scenario.the_client (Scenario.entered Scenario.auth) 3)
    as (r & st' & B & A & H).
  - exists 0%nat. repeat split; reflexivity.
  - intros i _. exists Backends.unauthorized. split; [|simpl; lia].
    unfold Scenario.always, Scenario.scripted.
    now destruct (List.length _) as [|[|n]].
  - injection B as B. subst r.
    exists st'. split; [apply (H 4%nat); lia|].
    destruct A as (_ & _ & Q & D & _). rewrite Q, D. split; reflexivity.
Defined.

(** X2. [get_token] on an open session, when the backend answers the first
    [k] token requests with a status of 400 or more and the next one with
    a status below 400 and a JSON body, and more than [k] attempts are
    allowed: [k + 1] requests are sent, [k] delays of one second are made,
    nothing is printed, and the decoded body is returned. *)
Theorem get_token_succeeds_after_failures
    (backend : list Request -> Request -> answer)
    (expected_content_type : headers -> string -> bool)
    (email password : string) (kw : kwargs)
    (c : ClientSession) (st : State) (k : nat) (n : Z)
    (r : Response) (j : pyval) :
  let rq := token_request c st email password kw in
  open_with c st ->
  Z.of_nat k < n ->
  (forall i, (i < k)%nat ->
     exists r', backend (sent (world st) ++ repeat rq i)%list rq = Answer r'
                /\ 400 <= status r') ->
  backend (sent (world st) ++ repeat rq k)%list rq = Answer r ->
  status r < 400 ->
  body r = JsonBody j ->
  exists st',
    after st st' (repeat rq (S k)) (repeat 1 k) []
    /\ forall fuel, (S k <= fuel)%nat ->
         get_token backend expected_content_type fuel email password (Some n) kw st
         = Some (Return j, st').
Proof.
  intros rq Ho Hn Hb B Hs Hj.
  destruct (token_loop_failures backend expected_content_type email password kw c
              k n st Ho ltac:(lia) Hb) as (st1 & A1 & R1).
  fold rq in A1.
  pose proof (after_open c _ _ _ _ _ A1 Ho) as Ho1.
  pose proof (after_token_request c _ _ _ _ _ email password kw A1) as Q1.
  destruct (pass_success backend expected_content_type email password kw c st1 r j
              (Some (n - Z.of_nat k))) as (st2 & P & A2); try assumption.
  { simpl. apply negb_true_iff, Z.eqb_neq. lia. }
  { rewrite Q1. destruct A1 as (_ & _ & E & _). now rewrite E. }
  rewrite Q1 in A2. fold rq in A2.
  exists st2. split.
  - pose proof (after_trans _ _ _ _ _ _ _ _ _ A1 A2) as A.
    rewrite <- repeat_cons, !app_nil_r in A. exact A.
  - intros fuel Hf. unfold get_token.
    replace fuel with (k + S (fuel - S k))%nat by lia.
    rewrite R1, token_loop_run_pass, P. apply token_loop_run_finished.
Qed.

Lemma get_token_succeeds_after_failures_witness :
  exists st',
    get_token
      (Scenario.scripted [Backends.unauthorized]
         (Scenario.response 200 "OK" (JsonBody Scenario.token)))
      Scenario.first_header_is 2 "admin@example.com" "secret" (Some 5) []
      (Scenario.entered Scenario.auth)
    = Some (Return Scenario.token, st')
    /\ sleeps (world st') = [1]
    /\ List.length (sent (world st')) = 2%nat.
Proof.
  destruct (get_token_succeeds_after_failures
              (Scenario.scripted [Backends.unauthorized]
                 (Scenario.response 200 "OK" (JsonBody Scenario.token)))
              Scenario.first_header_is "admin@example.com" "secret" []
              Scenario.the_client (Scenario.entered Scenario.auth) 1 5
              (Scenario.response 200 "OK" (JsonBody Scenario.token))
              Scenario.token)
    as (st' & A & H).
  - exists 0%nat. repeat split; reflexivity.
  - lia.
  - intros i Hi. assert (i = 0%nat) by lia. subst i.
    exists Backends.unauthorized. split; [reflexivity | simpl; lia].
  - reflexivity.
  - simpl. lia.
  - reflexivity.
  - exists st'. split; [apply (H 2%nat); lia|].
    destruct A as (_ & _ & Q & D & _). rewrite Q, D. split; reflexivity.
Defined.

(** X3. [get_token] with a number of attempts that is not negative always
    ends, whatever the backend does and whether or not the session is
    open: it sends at most [attempts] requests, every delay is of one
    second (the backoff does not grow), there are no more delays than
    requests, and nothing is printed unless the call ends in a process
    exit. *)
Theorem get_token_ends_within_attempts
    (backend : list Request -> Request -> answer)
    (expected_content_type : headers -> string -> bool)
    (email password : string) (kw : kwargs) (n : Z) (st : State) :
  0 <= n ->
  exists r st' q d o,
    get_token backend expected_content_type (S (Z.to_nat n))
      email password (Some n) kw st = Some (r, st')
    /\ after st st' q d o
    /\ (List.length q <= Z.to_nat n)%nat
    /\ d = repeat 1 (List.length d)
    /\ (List.length d <= List.length q)%nat
    /\ (not_exit r -> o = []).
Proof.
  intros Hn.
  destruct (token_loop_terminates backend expected_content_type email password kw
              (Z.to_nat n) n st ltac:(lia)) as (r & st' & H).
  destruct (token_loop_account backend expected_content_type email password kw
              _ n st r st' H) as (q & d & o & A & D & L & B & _ & X).
  exists r, st', q, d, o.
  split; [exact H|]. split; [exact A|]. split; [now apply B|].
  split; [exact D|]. split; [lia|].
  intros Hx. destruct r as [v|e]; [exact X|].
  destruct e; try exact X. contradiction.
Qed.

Lemma get_token_ends_within_attempts_witness :
  exists r st',
    get_token Backends.unreachable Scenario.first_header_is 4
      "admin@example.com" "secret" (Some 3) [] (Scenario.entered Scenario.auth)
    = Some (r, st')
    /\ (List.length (sent (world st')) <= 3)%nat.
Proof.
  destruct (get_token_ends_within_attempts
              Backends.unreachable Scenario.first_header_is
              "admin@example.com" "secret" [] 3 (Scenario.entered Scenario.auth))
    as (r & st' & q & d & o & H & A & L & _).
  - lia.
  - exists r, st'. split; [exact H|].
    destruct A as (_ & _ & Q & _). rewrite Q. simpl. exact L.
Defined.

(** X4. [get_token] ends in a process exit only after it has used every
    attempt: when a call ends with [SystemExit], the status is 1, the
    number of attempts was positive, exactly that many requests were sent
    and that many delays of one second made, and two lines were
    printed. *)
Theorem get_token_exit_means_exhausted
    (backend : list Request -> Request -> answer)
    (expected_content_type : headers -> string -> bool)
    (fuel : nat) (email password : string) (kw : kwargs)
    (attempts : option Z) (st : State) (code : Z) (context : option exn)
    (st' : State) :
  get_token backend expected_content_type fuel email password attempts kw st
  = Some (Raise (SystemExit code context), st') ->
  exists n q d o,
    attempts = Some n /\ 0 < n /\ code = 1
    /\ after st st' q d o
    /\ List.length q = Z.to_nat n
    /\ d = repeat 1 (Z.to_nat n)
    /\ List.length o = 2%nat.
Proof.
  intros H. destruct attempts as [n|].
  - destruct (token_loop_account backend expected_content_type email password kw
                fuel n st _ st' H) as (q & d & o & A & D & _ & _ & _ & X).
    destruct X as (-> & Hn & Lq & Ld & Lo).
    exists n, q, d, o. rewrite Ld in D.
    split; [reflexivity|]. split; [exact Hn|]. split; [reflexivity|].
    split; [exact A|]. split; [exact Lq|]. split; [exact D | exact Lo].
  - unfold get_token in H. destruct fuel as [|fuel]; [discriminate|].
    rewrite token_loop_run_pass, pass_no_attempts in H by reflexivity.
    rewrite token_loop_run_finished in H. discriminate.
Qed.

Lemma get_token_exit_means_exhausted_witness :
  exists st',
    get_token (Scenario.always Scenario.unavailable) Scenario.first_header_is
      3 "admin@example.com" "secret" (Some 3) [] (Scenario.entered Scenario.auth)
    = Some (Raise (exhausted_exit
                    (token_request Scenario.the_client (Scenario.entered Scenario.auth)
                       "admin@example.com" "secret" [])
                    Scenario.unavailable), st')
    /\ List.length (sent (world st')) = 3%nat
    /\ List.length (stdout (world st')) = 2%nat.
Proof.
  pose (st' := match get_token (Scenario.always Scenario.unavailable)
                       Scenario.first_header_is 3 "admin@example.com" "secret"
                       (Some 3) [] (Scenario.entered Scenario.auth) with
               | Some (_, s) => s
               | None => Scenario.entered Scenario.auth
               end).
  assert (E : get_token (Scenario.always Scenario.unavailable)
                Scenario.first_header_is 3 "admin@example.com" "secret"
                (Some 3) [] (Scenario.entered Scenario.auth)
              = Some (Raise (exhausted_exit
                    (token_request Scenario.the_client (Scenario.entered Scenario.auth)
                       "admin@example.com" "secret" [])
                    Scenario.unavailable), st'))
    by (vm_compute; reflexivity).
  destruct (get_token_exit_means_exhausted _ _ _ _ _ _ _ _ _ _ _ E)
    as (n & q & d & o & En & _ & _ & A & L & _ & Lo).
  exists st'. split; [exact E|].
  inversion En; subst n.
  destruct A as (_ & _ & Q & _ & O). rewrite Q, O, !length_app, L, Lo.
  split; reflexivity.
Defined.

(** X5. [get_token] with a negative number of attempts, on an open session
    whose backend answers every request with a status of 400 or more,
    never ends: the counter moves away from zero, so the loop test never
    fails and the exit is never reached. *)
Theorem get_token_negative_attempts_never_ends
    (backend : list Request -> Request -> answer)
    (expected_content_type : headers -> string -> bool)
    (email password : string) (kw : kwargs)
    (c : ClientSession) (st : State) (n : Z) :
  open_with c st ->
  n < 0 ->
  (forall history q, exists r, backend history q = Answer r /\ 400 <= status r) ->
  forall fuel,
    get_token backend expected_content_type fuel email password (Some n) kw st = None.
Proof.
  intros Ho Hn Hb fuel.
  exact (get_token_negative_attempts_runs_forever backend expected_content_type
           email password kw c Hb fuel n st Ho Hn).
Qed.

Lemma get_token_negative_attempts_never_ends_witness :
  get_token (Scenario.always Scenario.unavailable) Scenario.first_header_is
    50 "admin@example.com" "secret" (Some (-1)) [] (Scenario.entered Scenario.auth)
  = None.
Proof.
  apply (get_token_negative_attempts_never_ends
           (Scenario.always Scenario.unavailable) Scenario.first_header_is
           "admin@example.com" "secret" []
           Scenario.the_client (Scenario.entered Scenario.auth) (-1)).
  - exists 0%nat. repeat split; reflexivity.
  - lia.
  - intros history q. exists Scenario.unavailable. split; [|simpl; lia].
    unfold Scenario.always, Scenario.scripted.
    now destruct (List.length history) as [|[|m]].
Defined.

(** X6. [get_token] retries response errors only.  On an open session with
    attempts left, a connection that fails is raised to the caller after
    the first request, and so is the decoding error of a response below
    400 whose body is not JSON: one request, no delay, no further
    attempt, nothing printed. *)
Theorem get_token_does_not_retry_other_errors
    (backend : list Request -> Request -> answer)
    (expected_content_type : headers -> string -> bool)
    (fuel : nat) (email password : string) (kw : kwargs)
    (attempts : option Z) (c : ClientSession) (st : State) :
  let rq := token_request c st email password kw in
  open_with c st ->
  truthy_int attempts = true ->
  (forall msg,
     backend (sent (world st)) rq = ConnectionFailure msg ->
     get_token backend expected_content_type (S fuel) email password attempts kw st
     = Some (Raise (ClientConnectionError msg), logged rq st))
  /\ (forall r,
        backend (sent (world st)) rq = Answer r ->
        status r < 400 ->
        body r = MalformedBody ->
        get_token backend expected_content_type (S fuel) email password attempts kw st
        = Some (Raise JSONDecodeError, logged rq st)).
Proof.
  intros rq Ho Ht. split.
  - intros msg Hb. unfold get_token.
    rewrite token_loop_run_pass. unfold get_token_pass. rewrite Ht.
    change (post backend expected_content_type "/public/token" None
              (token_kwargs email password kw) st)
      with (verb backend expected_content_type POST "/public/token" [] None
              (token_kwargs email password kw) st).
    rewrite (verb_connection_failure backend expected_content_type POST
               "/public/token" [] None _ c st msg Ho Hb).
    simpl. apply token_loop_run_finished.
  - intros r Hb Hs Hm. unfold get_token.
    rewrite token_loop_run_pass. unfold get_token_pass. rewrite Ht.
    rewrite (post_token backend expected_content_type email password kw c st r Ho Hb).
    rewrite respond_ok by assumption. rewrite json_undeclared, Hm.
    simpl. apply token_loop_run_finished.
Qed.

Lemma get_token_does_not_retry_other_errors_witness :
  get_token Backends.unreachable Scenario.first_header_is 1
    "admin@example.com" "secret" (Some 3) [] (Scenario.entered Scenario.auth)
  = Some (Raise (ClientConnectionError "connection refused"),
          logged (token_request Scenario.the_client (Scenario.entered Scenario.auth)
                    "admin@example.com" "secret" [])
            (Scenario.entered Scenario.auth))
  /\ get_token (Scenario.always Backends.garbled) Scenario.first_header_is 1
       "admin@example.com" "secret" (Some 3) [] (Scenario.entered Scenario.auth)
     = Some (Raise JSONDecodeError,
             logged (token_request Scenario.the_client (Scenario.entered Scenario.auth)
                       "admin@example.com" "secret" [])
               (Scenario.entered Scenario.auth)).
Proof.
  split.
  - apply (get_token_does_not_retry_other_errors
             Backends.unreachable Scenario.first_header_is 0
             "admin@example.com" "secret" [] (Some 3)
             Scenario.the_client (Scenario.entered Scenario.auth)).
    + exists 0%nat. repeat split; reflexivity.
    + reflexivity.
    + reflexivity.
  - apply (get_token_does_not_retry_other_errors
             (Scenario.always Backends.garbled) Scenario.first_header_is 0
             "admin@example.com" "secret" [] (Some 3)
             Scenario.the_client (Scenario.entered Scenario.auth))
      with (r := Backends.garbled).
    + exists 0%nat. repeat split; reflexivity.
    + reflexivity.
    + reflexivity.
    + simpl. lia.
    + reflexivity.
Defined.

(** ** Calls outside the scope of the session *)

(** X7. On a session that holds no client, because it was never entered
    or because it was left, every call of the library raises
    [AttributeError] and leaves everything as it was: no request, no
    delay, no output.  [get_token] raises at its first attempt without
    retrying; with no attempts to make it returns [None] as on any
    session. *)
Theorem calls_without_client_fail
    (backend : list Request -> Request -> answer)
    (expected_content_type : headers -> string -> bool)
    (fuel : nat) (o : op) (st : State) :
  no_client st ->
  run_op backend expected_content_type (S fuel) o st
  = Some (outcome_without_client o, st).
Proof.
  intros Hn.
  assert (V : forall m url params ct kw,
            verb backend expected_content_type m url params ct kw st
            = (Raise AttributeError, st))
    by (intros; now apply verb_no_client).
  assert (G : forall url params ct kw,
            get backend expected_content_type url params ct kw st
            = (Raise AttributeError, st))
    by (intros url params ct kw; exact (V GET url params ct kw)).
  assert (Q : forall url ct kw,
            post backend expected_content_type url ct kw st
            = (Raise AttributeError, st))
    by (intros url ct kw; exact (V POST url [] ct kw)).
  assert (D : forall url ct kw,
            delete backend expected_content_type url ct kw st
            = (Raise AttributeError, st))
    by (intros url ct kw; exact (V DELETE url [] ct kw)).
  destruct o; simpl; unfold total.
  - now rewrite G.
  - now rewrite Q.
  - now rewrite D.
  - unfold get_key. now rewrite Q.
  - unfold get_token. rewrite token_loop_run_pass. unfold get_token_pass.
    destruct (truthy_int attempts).
    + rewrite Q. simpl. apply token_loop_run_finished.
    + apply token_loop_run_finished.
  - unfold whoami. now rewrite G.
  - unfold get_task. now rewrite G.
  - unfold get_task_by_consul_id, bind. now rewrite G.
  - unfold host_create. now rewrite Q.
  - unfold host_delete. now rewrite D.
  - unfold host_edit. now rewrite Q.
Qed.

Lemma calls_without_client_fail_witness :
  run_op (Scenario.always (Scenario.tasks [])) Scenario.first_header_is 1
    (OpHostCreate (PDict [("name", PStr "vm1")]) None []) (Scenario.fresh Scenario.vm)
  = Some (Raise AttributeError, Scenario.fresh Scenario.vm)
  /\ run_op (Scenario.always (Scenario.tasks [])) Scenario.first_header_is 1
       (OpGetToken "admin@example.com" "secret" (Some 3) [])
       (Scenario.fresh Scenario.auth)
     = Some (Raise AttributeError, Scenario.fresh Scenario.auth).
Proof.
  split.
  - apply (calls_without_client_fail (Scenario.always (Scenario.tasks []))
             Scenario.first_header_is 0
             (OpHostCreate (PDict [("name", PStr "vm1")]) None [])
             (Scenario.fresh Scenario.vm)).
    right. reflexivity.
  - apply (calls_without_client_fail (Scenario.always (Scenario.tasks []))
             Scenario.first_header_is 0
             (OpGetToken "admin@example.com" "secret" (Some 3) [])
             (Scenario.fresh Scenario.auth)).
    right. reflexivity.
Defined.

(** ** Calls that go through a verb once *)

Lemma get_task_by_consul_id_outcome
    (backend : list Request -> Request -> answer)
    (expected_content_type : headers -> string -> bool)
    consul_id ct kw st :
  let g := get backend expected_content_type "/task"
             [("where", "consul_id+EQ+" ++ str_of_int consul_id)]
             (given ct application_json) kw st in
  let t := get_task_by_consul_id backend expected_content_type consul_id ct kw st in
  snd t = snd g
  /\ (not_exit (fst g) -> not_exit (fst t)).
Proof.
  cbv zeta. unfold get_task_by_consul_id, bind.
  destruct (get backend expected_content_type "/task" _ (given ct application_json) kw st)
    as [[v|e] st1]; simpl; [|auto].
  destruct v as [| | | | |d]; simpl; auto.
  destruct (dict_get "list" d) as [w|]; simpl; auto.
  destruct w as [| | |s|l|d']; simpl; auto.
  - destruct s; simpl; auto.
  - destruct l; simpl; auto.
Qed.

(** X8. Every call of the library other than [get_token] sends at most one
    request and does nothing else to the world: it either leaves the state
    as it was, or adds one request under the endpoint; it never sleeps,
    never prints, never retries, and never ends in a process exit. *)
Theorem single_calls_send_at_most_one_request
    (backend : list Request -> Request -> answer)
    (expected_content_type : headers -> string -> bool)
    (fuel : nat) (o : op) (st : State) :
  single_call o = true ->
  exists r st',
    run_op backend expected_content_type fuel o st = Some (r, st')
    /\ not_exit r
    /\ (st' = st \/ exists rq, st' = logged rq st /\ prefixed (self st) rq).
Proof.
  intros Hs.
  assert (V : forall m url params ct kw,
            let t := verb backend expected_content_type m url params ct kw st in
            not_exit (fst t)
            /\ (snd t = st \/ exists rq, snd t = logged rq st /\ prefixed (self st) rq)).
  { intros m url params ct kw. cbv zeta.
    destruct (verb_outcome backend expected_content_type m url params ct kw st)
      as [[E [R|R]]|(c & Ho & E & X)].
    - rewrite R, E. split; [exact I | now left].
    - rewrite R, E. split; [exact I | now left].
    - split; [exact X|]. right. eexists. split; [exact E|].
      eexists. reflexivity. }
  assert (T : forall m : M pyval,
            (not_exit (fst (m st))
             /\ (snd (m st) = st
                 \/ exists rq, snd (m st) = logged rq st /\ prefixed (self st) rq)) ->
            exists r st',
              total m st = Some (r, st') /\ not_exit r
              /\ (st' = st \/ exists rq, st' = logged rq st /\ prefixed (self st) rq)).
  { intros m [H1 H2]. unfold total. destruct (m st) as [r st']. now exists r, st'. }
  destruct o; try discriminate Hs; simpl; apply T.
  - exact (V GET _ params content_type kw).
  - exact (V POST _ [] content_type kw).
  - exact (V DELETE _ [] content_type kw).
  - exact (V POST _ [] _ kw).
  - exact (V GET "/whoami" _ _ kw).
  - exact (V GET _ _ _ kw).
  - destruct (get_task_by_consul_id_outcome backend expected_content_type
                consul_id content_type kw st) as [E X].
    destruct (V GET "/task" [("where", "consul_id+EQ+" ++ str_of_int consul_id)]
                (given content_type application_json) kw) as [V1 V2].
    simpl verb in V1, V2.
    split; [now apply X | now rewrite E].
  - exact (V POST "/host" [] _ _).
  - exact (V DELETE _ [] _ kw).
  - exact (V POST _ [] _ _).
Qed.

Lemma single_calls_send_at_most_one_request_witness :
  exists r st',
    run_op (Scenario.always (Scenario.not_found EmptyBody)) Scenario.first_header_is 0
      (OpHostEdit 7 (PDict [("name", PStr "vm1")]) None []) (Scenario.entered Scenario.vm)
    = Some (r, st')
    /\ sleeps (world st') = []
    /\ stdout (world st') = []
    /\ (List.length (sent (world st')) <= 1)%nat.
Proof.
  destruct (single_calls_send_at_most_one_request
              (Scenario.always (Scenario.not_found EmptyBody)) Scenario.first_header_is 0
              (OpHostEdit 7 (PDict [("name", PStr "vm1")]) None [])
              (Scenario.entered Scenario.vm))
    as (r & st' & H & _ & [E|(rq & E & _)]).
  - reflexivity.
  - exists r, st'. split; [exact H|]. rewrite E. simpl. repeat split. lia.
  - exists r, st'. split; [exact H|]. rewrite E. simpl. repeat split. lia.
Defined.

(** ** get_task_by_consul_id: responses of another shape *)

(** X9. [get_task_by_consul_id] on an open session does not look into the
    response before subscripting it.  A status of 400 or more is raised as
    the [ClientResponseError] of the GET.  Below 400 the body is decoded
    under the content type in force: the caller's [content_type] keyword if
    there is one, [application/json] otherwise.  If that type is declared,
    not empty and not the type of the response, [ContentTypeError] is
    raised.  If it is accepted: an empty body (decoded as [None]) or a JSON
    array gives [TypeError]; a JSON object without the member [list] gives
    [KeyError('list')]; a member [list] that is [null] gives [TypeError].
    In each case the request has been sent. *)
Theorem get_task_by_consul_id_unexpected_response
    (backend : list Request -> Request -> answer)
    (expected_content_type : headers -> string -> bool)
    (consul_id : Z) (ct : keyword (option string)) (kw : kwargs)
    (c : ClientSession) (st : State) (r : Response) :
  let rq := request_of GET c st
              ("/task?where=consul_id+EQ+" ++ str_of_int consul_id) kw in
  let result :=
    get_task_by_consul_id backend expected_content_type consul_id ct kw st in
  open_with c st ->
  backend (sent (world st)) rq = Answer r ->
  (400 <= status r ->
   result = (Raise (ClientResponseError (error_of rq r (reason r))), logged rq st))
  /\ (status r < 400 ->
      forall t, given ct application_json = Some t ->
                nonempty t = true ->
                expected_content_type (rs_headers r) t = false ->
                result = (Raise (ContentTypeError (mimetype_error_of rq r)),
                          logged rq st))
  /\ (status r < 400 ->
      accepted expected_content_type (rs_headers r) (given ct application_json) ->
      (body r = EmptyBody -> result = (Raise TypeError, logged rq st))
      /\ (forall l, body r = JsonBody (PList l) ->
                    result = (Raise TypeError, logged rq st))
      /\ (forall d, body r = JsonBody (PDict d) -> dict_get "list" d = None ->
                    result = (Raise (KeyError (PStr "list")), logged rq st))
      /\ (forall d, body r = JsonBody (PDict d) -> dict_get "list" d = Some PNone ->
                    result = (Raise TypeError, logged rq st))).
Proof.
  intros rq result Ho Hb. subst result.
  assert (G : get backend expected_content_type "/task"
                [("where", "consul_id+EQ+" ++ str_of_int consul_id)]
                (given ct application_json) kw st
              = respond expected_content_type rq r (given ct application_json)
                  (logged rq st)).
  { subst rq. rewrite <- consul_id_query in *.
    exact (verb_answered backend expected_content_type GET "/task" _
             (given ct application_json) kw c st r Ho Hb). }
  unfold get_task_by_consul_id, bind. rewrite G. split; [|split].
  - intros Hs. now rewrite respond_error.
  - intros Hs t Et Hn He. rewrite respond_ok by assumption.
    rewrite Et. now rewrite json_unexpected.
  - intros Hs Hc. rewrite respond_ok by assumption.
    rewrite json_accepted by assumption.
    repeat split.
    + intros E. now rewrite E.
    + intros l E. now rewrite E.
    + intros d E Hl. rewrite E. simpl. now rewrite Hl.
    + intros d E Hl. rewrite E. simpl. now rewrite Hl.
Qed.

Lemma get_task_by_consul_id_unexpected_response_witness :
  get_task_by_consul_id
    (Scenario.always (Scenario.response 200 "OK" (JsonBody (PDict []))))
    Scenario.first_header_is 7 None [] (Scenario.entered Scenario.vm)
  = (Raise (KeyError (PStr "list")),
     logged {| rq_method := GET; rq_base_url := "https://vm.example.com";
               rq_url := "/vm/v3/task?where=consul_id+EQ+7";
               rq_ssl := Some true; rq_kwargs := [] |}
       (Scenario.entered Scenario.vm))
  /\ fst (get_task_by_consul_id
            (Scenario.always (Scenario.not_found EmptyBody))
            Scenario.first_header_is 7 None [] (Scenario.entered Scenario.vm))
     = Raise (ClientResponseError
                (error_of (request_of GET Scenario.the_client
                             (Scenario.entered Scenario.vm)
                             "/task?where=consul_id+EQ+7" [])
                   (Scenario.not_found EmptyBody) "Not Found"))
  /\ fst (get_task_by_consul_id
            (Scenario.always (Scenario.response 200 "OK" (JsonBody (PDict []))))
            Scenario.first_header_is 7 (Some (Some "text/plain")) []
            (Scenario.entered Scenario.vm))
     = Raise (ContentTypeError
                (mimetype_error_of
                   (request_of GET Scenario.the_client
                      (Scenario.entered Scenario.vm)
                      "/task?where=consul_id+EQ+7" [])
                   (Scenario.response 200 "OK" (JsonBody (PDict []))))).
Proof.
  split; [|split].
  - destruct (get_task_by_consul_id_unexpected_response
                (Scenario.always (Scenario.response 200 "OK" (JsonBody (PDict []))))
                Scenario.first_header_is 7 None []
                Scenario.the_client (Scenario.entered Scenario.vm)
                (Scenario.response 200 "OK" (JsonBody (PDict []))))
      as (_ & _ & H).
    + exists 0%nat. repeat split; reflexivity.
    + reflexivity.
    + destruct H as (_ & _ & H & _); [simpl; lia | |].
      * right. right. eexists. split; reflexivity.
      * rewrite (H [] eq_refl eq_refl). reflexivity.
  - destruct (get_task_by_consul_id_unexpected_response
                (Scenario.always (Scenario.not_found EmptyBody))
                Scenario.first_header_is 7 None []
                Scenario.the_client (Scenario.entered Scenario.vm)
                (Scenario.not_found EmptyBody))
      as (H & _).
    + exists 0%nat. repeat split; reflexivity.
    + reflexivity.
    + rewrite H by (simpl; lia). reflexivity.
  - destruct (get_task_by_consul_id_unexpected_response
                (Scenario.always (Scenario.response 200 "OK" (JsonBody (PDict []))))
                Scenario.first_header_is 7 (Some (Some "text/plain")) []
                Scenario.the_client (Scenario.entered Scenario.vm)
                (Scenario.response 200 "OK" (JsonBody (PDict []))))
      as (_ & H & _).
    + exists 0%nat. repeat split; reflexivity.
    + reflexivity.
    + rewrite (H ltac:(simpl; lia) "text/plain" eq_refl eq_refl eq_refl). reflexivity.
Defined.

(** ** Where the requests of a session go *)

Lemma of_session_request_of m c st path kw :
  of_session (cs_base_url c) (self st) (request_of m c st path kw).
Proof. repeat split. now exists path. Qed.

Lemma run_op_requests
    (backend : list Request -> Request -> answer)
    (expected_content_type : headers -> string -> bool)
    fuel o c st r st' :
  open_with c st ->
  run_op backend expected_content_type fuel o st = Some (r, st') ->
  exists new,
    sent (world st') = (sent (world st) ++ new)%list
    /\ Forall (of_session (cs_base_url c) (self st)) new.
Proof.
  intros Ho.
  assert (V : forall m url params ct kw,
            exists new,
              sent (world (snd (verb backend expected_content_type m url params ct kw st)))
              = (sent (world st) ++ new)%list
              /\ Forall (of_session (cs_base_url c) (self st)) new).
  { intros m url params ct kw.
    rewrite (verb_sends backend expected_content_type m url params ct kw c st Ho).
    eexists. split; [reflexivity|].
    constructor; [apply of_session_request_of | constructor]. }
  assert (T : forall m : M pyval,
            (exists new,
               sent (world (snd (m st))) = (sent (world st) ++ new)%list
               /\ Forall (of_session (cs_base_url c) (self st)) new) ->
            total m st = Some (r, st') ->
            exists new,
              sent (world st') = (sent (world st) ++ new)%list
              /\ Forall (of_session (cs_base_url c) (self st)) new).
  { intros m H E. unfold total in E. inversion E as [E']. now rewrite E' in H. }
  destruct o; simpl.
  - apply T. exact (V GET _ params content_type kw).
  - apply T. exact (V POST _ [] content_type kw).
  - apply T. exact (V DELETE _ [] content_type kw).
  - apply T. exact (V POST _ [] _ kw).
  - intros H. destruct attempts as [n|].
    + destruct (token_loop_account backend expected_content_type email password kw
                  fuel n st r st' H) as (q & d & o & A & _ & _ & _ & R & _).
      exists q. destruct A as (_ & _ & Q & _). split; [exact Q|].
      rewrite (R c Ho). apply Forall_forall. intros x Hx.
      apply repeat_spec in Hx. subst x. apply of_session_request_of.
    + unfold get_token in H. destruct fuel as [|fuel]; [discriminate|].
      rewrite token_loop_run_pass, pass_no_attempts in H by reflexivity.
      rewrite token_loop_run_finished in H. inversion H; subst.
      exists []. split; [now rewrite app_nil_r | constructor].
  - apply T. exact (V GET "/whoami" _ _ kw).
  - apply T. exact (V GET _ _ _ kw).
  - apply T.
    destruct (get_task_by_consul_id_outcome backend expected_content_type
                consul_id content_type kw st) as [E _].
    rewrite E.
    exact (V GET "/task" [("where", "consul_id+EQ+" ++ str_of_int consul_id)]
             _ kw).
  - apply T. exact (V POST "/host" [] _ _).
  - apply T. exact (V DELETE _ [] _ kw).
  - apply T. exact (V POST _ [] _ _).
Qed.

Lemma run_block_requests
    (backend : list Request -> Request -> answer)
    (expected_content_type : headers -> string -> bool)
    fuel c block :
  forall last st r st',
    open_with c st ->
    run_block backend expected_content_type fuel block last st = Some (r, st') ->
    exists new,
      sent (world st') = (sent (world st) ++ new)%list
      /\ Forall (of_session (cs_base_url c) (self st)) new.
Proof.
  induction block as [|o block IH]; intros last st r st' Ho H; simpl in H.
  - inversion H; subst. exists []. split; [now rewrite app_nil_r | constructor].
  - destruct (run_op backend expected_content_type fuel o st) as [[[v|e] st1]|] eqn:E;
      try discriminate.
    + destruct (run_op_requests _ _ _ _ _ _ _ _ Ho E) as (n1 & Q1 & F1).
      destruct (frame_run_op _ _ _ _ _ _ _ E) as [Fs Fc _].
      assert (Ho1 : open_with c st1).
      { destruct Ho as (id & H1 & H2 & H3). exists id. now rewrite Fs, Fc. }
      destruct (IH v st1 r st' Ho1 H) as (n2 & Q2 & F2).
      exists (n1 ++ n2)%list. split; [now rewrite Q2, Q1, app_assoc|].
      apply Forall_app. split; [exact F1|]. now rewrite Fs in F2.
    + inversion H; subst. exact (run_op_requests _ _ _ _ _ _ _ _ Ho E).
Qed.

(** X10. Inside [async with], every request of every call of the block
    goes to the base URL the session was built with, carries the TLS flag
    the session was built with, and has a path under the endpoint. *)
Theorem block_requests_go_to_the_session
    (backend : list Request -> Request -> answer)
    (expected_content_type : headers -> string -> bool)
    (fuel : nat) (block : list op) (st : State) (r : result pyval) (st2 : State) :
  run_block backend expected_content_type fuel block PNone (snd (aenter st))
  = Some (r, st2) ->
  exists new,
    sent (world st2) = (sent (world st) ++ new)%list
    /\ Forall (fun rq =>
                 rq_base_url rq = url (self st)
                 /\ rq_ssl rq = ssl (self st)
                 /\ exists rest, rq_url rq = endpoint (self st) ++ rest) new.
Proof.
  intros H.
  destruct (aenter_opens st) as (_ & Ho & _ & _).
  destruct (run_block_requests backend expected_content_type fuel
              (new_client (self st)) block PNone _ r st2 Ho H) as (new & Q & F).
  exists new. split; [exact Q|]. exact F.
Qed.

Lemma block_requests_go_to_the_session_witness :
  exists r st2,
    run_block (Scenario.always (Scenario.tasks [])) Scenario.first_header_is 1
      [OpGetTask 3 None None []; OpHostDelete 4 None []] PNone (snd (aenter (Scenario.fresh Scenario.vm)))
    = Some (r, st2)
    /\ Forall (fun rq => rq_base_url rq = "https://vm.example.com"
                         /\ rq_ssl rq = Some true) (sent (world st2)).
Proof.
  pose (st2 := match run_block (Scenario.always (Scenario.tasks []))
                       Scenario.first_header_is 1
                       [OpGetTask 3 None None []; OpHostDelete 4 None []] PNone
                       (snd (aenter (Scenario.fresh Scenario.vm))) with
               | Some (_, s) => s
               | None => Scenario.fresh Scenario.vm
               end).
  assert (E : run_block (Scenario.always (Scenario.tasks []))
                Scenario.first_header_is 1
                [OpGetTask 3 None None []; OpHostDelete 4 None []] PNone
                (snd (aenter (Scenario.fresh Scenario.vm)))
              = Some (Return (PDict [("list", PList [])]), st2))
    by (vm_compute; reflexivity).
  destruct (block_requests_go_to_the_session _ _ _ _ _ _ _ E) as (new & Q & F).
  eexists. exists st2. split; [exact E|].
  rewrite Q. simpl.
  eapply Forall_impl; [|exact F].
  intros rq (H1 & H2 & _). split; assumption.
Defined.

(** ** Entering and leaving more than once *)

Lemma nth_error_before_last {A : Type} (l : list A) (x y : A) :
  nth_error ((l ++ [x]) ++ [y]) (List.length l) = Some x.
Proof.
  rewrite nth_error_other; [apply nth_error_last|].
  rewrite length_app. simpl. lia.
Qed.

Lemma aenter_state st :
  aenter st
  = (Return tt,
     {| self := set_session (Client (List.length (clients (world st)))) (self st);
        world := add_client (new_client (self st)) (world st) |}).
Proof. reflexivity. Qed.

Lemma aexit_state st id :
  _session (self st) = Client id ->
  aexit st
  = (Return tt,
     {| self := set_session IsNone (self st);
        world := update_client id closed (world st) |}).
Proof. intros H. unfold aexit. now rewrite H. Qed.

Lemma aexit_no_client st :
  _session (self st) = IsNone -> aexit st = (Raise AttributeError, st).
Proof. intros H. unfold aexit. now rewrite H. Qed.

(** X11. Entering a session twice without leaving it in between loses the
    first client: the exit that follows closes the second client only, the
    first one stays open and was never closed, and the session no longer
    holds either, so a further exit raises [AttributeError] and closes
    nothing. *)
Theorem entering_twice_leaks_the_first_client (st : State) :
  let n := List.length (clients (world st)) in
  let st2 := snd (aenter (snd (aenter st))) in
  let st3 := snd (aexit st2) in
  _session (self st2) = Client (S n)
  /\ aexit st2 = (Return tt, st3)
  /\ nth_error (clients (world st3)) n = Some (new_client (self st))
  /\ nth_error (clients (world st3)) (S n) = Some (closed_once (self st))
  /\ List.length (clients (world st3)) = S (S n)
  /\ _session (self st3) = IsNone
  /\ aexit st3 = (Raise AttributeError, st3)
  /\ nth_error (clients (world (snd (aexit st3)))) n = Some (new_client (self st)).
Proof.
  cbv zeta.
  assert (L : List.length (clients (world st) ++ [new_client (self st)])
              = S (List.length (clients (world st))))
    by (rewrite length_app; simpl; lia).
  rewrite (aenter_state st). cbn [snd].
  rewrite aenter_state. cbn [snd self world clients add_client].
  rewrite L.
  set (st2 := {| self := _; world := _ |}).
  assert (E2 : _session (self st2) = Client (S (List.length (clients (world st)))))
    by reflexivity.
  rewrite (aexit_state st2 _ E2). cbn [snd].
  set (st3 := {| self := set_session IsNone (self st2); world := _ |}).
  assert (C3 : clients (world st3)
               = ((clients (world st) ++ [new_client (self st)])
                  ++ [closed_once (self st)])%list).
  { subst st3 st2. cbn [world self clients update_client add_client].
    rewrite <- L. now rewrite update_nth_last. }
  assert (S3 : _session (self st3) = IsNone) by reflexivity.
  split; [reflexivity|]. split; [reflexivity|].
  split; [rewrite C3; apply nth_error_before_last|].
  split; [rewrite C3, <- L; apply nth_error_last|].
  split; [rewrite C3, !length_app; simpl; lia|].
  split; [exact S3|].
  rewrite (aexit_no_client st3 S3).
  split; [reflexivity|].
  cbn [snd]. rewrite C3. apply nth_error_before_last.
Qed.

Lemma enter_then_exit st :
  (aenter ;;; aexit) st
  = (Return tt,
     {| self := set_session IsNone (self st);
        world := add_client (closed_once (self st)) (world st) |}).
Proof.
  unfold bind, aenter, aexit. simpl.
  unfold client_close, with_world, with_self, bind, update_client, add_client.
  simpl. now rewrite update_nth_last.
Qed.

(** X12. A session can be entered and left any number of times in a row:
    each round ends normally, creates one client on the base URL and
    closes it once, so after [k] rounds there are [k] more clients, all
    closed, each closed once; no request was sent and the configuration is
    the one the session started with. *)
Theorem enter_exit_rounds_close_every_client (k : nat) (st : State) :
  exists st',
    enter_exit k st = (Return tt, st')
    /\ clients (world st')
       = (clients (world st) ++ repeat (closed_once (self st)) k)%list
    /\ sent (world st') = sent (world st)
    /\ configuration (self st') = configuration (self st)
    /\ ((0 < k)%nat -> _session (self st') = IsNone).
Proof.
  revert st. induction k as [|k IH]; intros st.
  - exists st. simpl. rewrite app_nil_r. repeat split. lia.
  - cbn [enter_exit].
    assert (E : (aenter ;;; aexit ;;; enter_exit k) st
                = enter_exit k
                    {| self := set_session IsNone (self st);
                       world := add_client (closed_once (self st)) (world st) |}).
    { pose proof (enter_then_exit st) as H.
      unfold bind in *.
      destruct (aenter st) as [[[]|e] st1]; [|discriminate H].
      destruct (aexit st1) as [[[]|e] st2]; [|discriminate H].
      now inversion H. }
    rewrite E.
    destruct (IH {| self := set_session IsNone (self st);
                    world := add_client (closed_once (self st)) (world st) |})
      as (st' & R & C & Q & F & N).
    exists st'. split; [exact R|]. simpl in C, Q, F.
    split.
    { rewrite C. simpl. now rewrite <- app_assoc. }
    split; [exact Q|]. split; [exact F|].
    intros _. destruct k as [|k].
    + simpl in R. inversion R. reflexivity.
    + apply N. lia.
Qed.

(** ** The sessions of vm6.py *)

(** X13. For each of the four sessions with its default definition and
    version (auth/v4, dnsproxy/v3, ip/v3, vm/v3), entered with
    [async with]: the path sent by a verb for the relative path [p] is the
    endpoint followed by [p], and it has exactly the double slashes of
    [p]; the four endpoints are different from one another. *)
Theorem default_sessions_paths
    (backend : list Request -> Request -> answer)
    (expected_content_type : headers -> string -> bool)
    (u : string) (tls : option bool) (k : kwargs) (s : BaseSession)
    (w : World) (m : http_method) (p : string) (ct : option string) (kw : kwargs) :
  In s (default_sessions u tls k) ->
  let st := snd (aenter {| self := s; world := w |}) in
  exists rq,
    sent (world (snd (verb backend expected_content_type m p [] ct kw st)))
    = (sent w ++ [rq])%list
    /\ rq_url rq = endpoint s ++ p
    /\ double_slashes (rq_url rq) = double_slashes p
    /\ rq_base_url rq = u
    /\ NoDup (map endpoint (default_sessions u tls k)).
Proof.
  intros Hs st.
  destruct (aenter_opens {| self := s; world := w |}) as (_ & Ho & _ & _).
  fold st in Ho.
  exists (request_of m (new_client s) st p kw).
  split.
  { rewrite (verb_sends backend expected_content_type m p [] ct kw _ st Ho).
    unfold relative. destruct m; simpl; now rewrite append_nil_r. }
  split; [reflexivity|].
  assert (Seg : segment (definition s) = true /\ segment (version s) = true
                /\ url s = u).
  { simpl in Hs. destruct Hs as [<-|[<-|[<-|[<-|[]]]]]; repeat split. }
  destruct Seg as (Sd & Sv & Su).
  split.
  { change (double_slashes (endpoint s ++ p) = double_slashes p).
    destruct (endpoint_slashes s Sd Sv) as [D E].
    rewrite double_slashes_append, D, E. simpl. lia. }
  split; [exact Su|].
  simpl. repeat constructor; simpl; intuition discriminate.
Qed.

Lemma default_sessions_paths_witness :
  exists rq,
    sent (world (snd (verb (Scenario.always (Scenario.tasks [])) Scenario.first_header_is
                        GET "/ipnet" [] application_json []
                        (snd (aenter (Scenario.fresh
                                        (IpSession "https://vm.example.com" None [])))))))
    = [rq]
    /\ rq_url rq = "/ip/v3/ipnet".
Proof.
  destruct (default_sessions_paths
              (Scenario.always (Scenario.tasks [])) Scenario.first_header_is
              "https://vm.example.com" None []
              (IpSession "https://vm.example.com" None [])
              Scenario.nothing GET "/ipnet" application_json [])
    as (rq & Q & U & _).
  - simpl. auto.
  - exists rq. split; [exact Q | exact U].
Defined.

(** ** The query string as a whole *)

Lemma count_char_append (c : ascii) (a b : string) :
  count_char c (a ++ b) = (count_char c a + count_char c b)%nat.
Proof. induction a as [|x a IH]; simpl; [reflexivity | rewrite IH; lia]. Qed.

Lemma count_char_absent (c : ascii) (s : string) :
  Urllib.mem c s = false -> count_char c s = 0%nat.
Proof.
  induction s as [|x s IH]; simpl; [reflexivity|].
  intros H. apply orb_false_iff in H as [Hx Hs].
  rewrite Ascii.eqb_sym in Hx. now rewrite Hx, IH.
Qed.

Lemma count_in_pair (k v : string) :
  count_char "&" (encoded k ++ "=" ++ encoded v) = 0%nat
  /\ count_char "=" (encoded k ++ "=" ++ encoded v) = 1%nat.
Proof.
  destruct (UrllibFacts.encoded_separators k) as (K1 & K2 & _).
  destruct (UrllibFacts.encoded_separators v) as (V1 & V2 & _).
  rewrite !count_char_append.
  rewrite !(count_char_absent _ _ K1), !(count_char_absent _ _ K2),
    !(count_char_absent _ _ V1), !(count_char_absent _ _ V2).
  split; reflexivity.
Qed.

(** X14. The query string that [get] builds has one [=] for each
    parameter and one [&] between two parameters, and no other [=] or
    [&]: whatever the keys and the values contain, the backend finds as
    many parameters as the caller gave. *)
Theorem query_string_separators (params : list (string * string)) :
  count_char "=" (Urllib.urlencode params "+'()") = List.length params
  /\ count_char "&" (Urllib.urlencode params "+'()") = pred (List.length params).
Proof.
  rewrite UrllibFacts.urlencode_encoded.
  induction params as [|[k v] params [IH1 IH2]]; [split; reflexivity|].
  destruct (count_in_pair k v) as [A E].
  destruct params as [|kv params].
  - cbn [map Urllib.join fst snd]. now rewrite A, E.
  - change (Urllib.join "&"
              (map (fun kv0 => encoded (fst kv0) ++ "=" ++ encoded (snd kv0))
                 ((k, v) :: kv :: params)))
      with ((encoded k ++ "=" ++ encoded v) ++ "&"
            ++ Urllib.join "&"
                 (map (fun kv0 => encoded (fst kv0) ++ "=" ++ encoded (snd kv0))
                    (kv :: params))).
    rewrite (count_char_append "=" (encoded k ++ "=" ++ encoded v)),
      (count_char_append "&" (encoded k ++ "=" ++ encoded v)),
      (count_char_append "=" "&"), (count_char_append "&" "&"),
      A, E, IH1, IH2.
    simpl. split; lia.
Qed.

(** ** What the query encoding keeps *)

Module EncodingFacts.
Import Urllib.

Lemma percent_inverse (c : ascii) :
  byte_of_hex (hex_digit (N_of_ascii c / 16)) (hex_digit (N_of_ascii c mod 16)) = c.
Proof. UrllibFacts.each_byte c; reflexivity. Qed.

Lemma encoded_char_form (c : ascii) :
  (encoded_char c = String (space_as_plus c) EmptyString
   /\ space_as_plus c <> "%"%char)
  \/ (encoded_char c = percent c /\ space_as_plus c = c).
Proof.
  UrllibFacts.each_byte c;
    first [ left; split; [reflexivity | discriminate]
          | right; split; reflexivity ].
Qed.

Lemma encoded_char_space_as_plus (c : ascii) :
  encoded_char (space_as_plus c) = encoded_char c.
Proof. UrllibFacts.each_byte c; reflexivity. Qed.

Lemma percent_injective (c d : ascii) (s t : string) :
  percent c ++ s = percent d ++ t -> c = d /\ s = t.
Proof.
  unfold percent. simpl. intros H. injection H as H1 H2 H3.
  split; [|exact H3].
  rewrite <- (percent_inverse c), <- (percent_inverse d). now rewrite H1, H2.
Qed.

Lemma encoded_injective (s : string) :
  forall t, encoded s = encoded t -> replace_space_plus s = replace_space_plus t.
Proof.
  induction s as [|c s IH]; intros [|d t] H.
  - reflexivity.
  - simpl in H.
    destruct (encoded_char_form d) as [[E _]|[E _]]; rewrite E in H;
      discriminate H.
  - simpl in H.
    destruct (encoded_char_form c) as [[E _]|[E _]]; rewrite E in H;
      discriminate H.
  - cbn [encoded] in H. cbn [replace_space_plus].
    change (String (space_as_plus c) (replace_space_plus s)
            = String (space_as_plus d) (replace_space_plus t)).
    destruct (encoded_char_form c) as [[Ec Nc]|[Ec Sc]];
      destruct (encoded_char_form d) as [[Ed Nd]|[Ed Sd]];
      rewrite Ec, Ed in H.
    + simpl in H. injection H as H1 H2. now rewrite H1, (IH t H2).
    + unfold percent in H. simpl in H. injection H as H1 _.
      contradiction.
    + unfold percent in H. simpl in H. injection H as H1 _.
      symmetry in H1. contradiction.
    + apply percent_injective in H as [H1 H2].
      now rewrite Sc, Sd, H1, (IH t H2).
Qed.

Lemma encoded_of_replaced (s : string) :
  forall t, replace_space_plus s = replace_space_plus t -> encoded s = encoded t.
Proof.
  induction s as [|c s IH]; intros [|d t] H; try discriminate H; [reflexivity|].
  cbn [replace_space_plus] in H.
  change (String (space_as_plus c) (replace_space_plus s)
          = String (space_as_plus d) (replace_space_plus t)) in H.
  injection H as H1 H2.
  cbn [encoded].
  rewrite <- (encoded_char_space_as_plus c), <- (encoded_char_space_as_plus d), H1.
  now rewrite (IH t H2).
Qed.

End EncodingFacts.

(** X15. The encoding of a key or a value of the query loses the
    difference between a space and a plus sign and nothing else: two
    texts have the same encoding exactly when they are the same once
    every space is read as a plus sign.  In particular two texts without
    spaces have the same encoding only when they are equal. *)
Theorem query_encoding_keeps_all_but_spaces (s t : string) :
  (Urllib.quote_plus s "+'()" = Urllib.quote_plus t "+'()"
   <-> Urllib.replace_space_plus s = Urllib.replace_space_plus t)
  /\ (Urllib.mem " " s = false -> Urllib.mem " " t = false ->
      Urllib.quote_plus s "+'()" = Urllib.quote_plus t "+'()" -> s = t).
Proof.
  rewrite !UrllibFacts.quote_plus_encoded.
  assert (Hiff : encoded s = encoded t
                 <-> Urllib.replace_space_plus s = Urllib.replace_space_plus t)
    by (split; [apply EncodingFacts.encoded_injective
               | apply EncodingFacts.encoded_of_replaced]).
  split; [exact Hiff|].
  assert (Hid : forall x, Urllib.mem " " x = false -> Urllib.replace_space_plus x = x).
  { induction x as [|c x IH]; intros H; [reflexivity|].
    change (Ascii.eqb " " c || Urllib.mem " " x = false) in H.
    apply orb_false_iff in H as [Hc Hx].
    rewrite Ascii.eqb_sym in Hc.
    cbn [Urllib.replace_space_plus]. now rewrite Hc, IH. }
  intros Hs Ht H. apply Hiff in H. now rewrite (Hid s Hs), (Hid t Ht) in H.
Qed.

Lemma query_encoding_keeps_all_but_spaces_witness :
  Urllib.quote_plus "a b" "+'()" = Urllib.quote_plus "a+b" "+'()"
  /\ ("name+EQ+'x'" = "name+EQ+'x'").
Proof.
  destruct (query_encoding_keeps_all_but_spaces "name+EQ+'x'" "name+EQ+'x'")
    as [_ H].
  destruct (query_encoding_keeps_all_but_spaces "a b" "a+b") as [[_ H2] _].
  split; [apply H2; reflexivity|].
  apply H; reflexivity.
Defined.

(** ** Identifiers in paths *)

Lemma append_cancel_l (a x y : string) : a ++ x = a ++ y -> x = y.
Proof.
  induction a as [|c a IH]; simpl; [auto|].
  intros H. injection H as H. auto.
Qed.

Lemma length_append (x y : string) :
  String.length (x ++ y) = (String.length x + String.length y)%nat.
Proof. induction x as [|c x IH]; simpl; [reflexivity | now rewrite IH]. Qed.

Lemma append_cancel_r (s : string) : forall x y : string, x ++ s = y ++ s -> x = y.
Proof.
  induction x as [|c x IH]; intros [|d y] H.
  - reflexivity.
  - apply (f_equal String.length) in H. simpl in H.
    rewrite length_append in H. lia.
  - apply (f_equal String.length) in H. simpl in H.
    rewrite length_append in H. lia.
  - simpl in H. injection H as Hc H. subst d. f_equal. now apply IH.
Qed.

(** X16. The decimal text that the domain methods put into a path reads
    back as the identifier it was made from, so different identifiers give
    different requests: on an open session, [get_task] and [host_delete],
    called with the same keyword arguments, send the same request for two
    identifiers only when the identifiers are equal. *)
Theorem identifiers_give_different_requests
    (backend : list Request -> Request -> answer)
    (expected_content_type : headers -> string -> bool)
    (params : keyword (list (string * string)))
    (ct : keyword (option string)) (kw : kwargs)
    (c : ClientSession) (st : State) (a b : Z) :
  open_with c st ->
  option_map Z.of_int (NilZero.int_of_string (str_of_int a)) = Some a
  /\ (sent (world (snd (get_task backend expected_content_type a params ct kw st)))
      = sent (world (snd (get_task backend expected_content_type b params ct kw st)))
      -> a = b)
  /\ (sent (world (snd (host_delete backend expected_content_type a ct kw st)))
      = sent (world (snd (host_delete backend expected_content_type b ct kw st)))
      -> a = b).
Proof.
  intros Ho.
  assert (V : forall m prefix ps t,
            sent (world (snd (verb backend expected_content_type m
                                (prefix ++ str_of_int a) ps t kw st)))
            = sent (world (snd (verb backend expected_content_type m
                                  (prefix ++ str_of_int b) ps t kw st)))
            -> a = b).
  { intros m prefix ps t.
    rewrite !(verb_sends backend expected_content_type m _ ps t kw c st Ho).
    simpl. intros H. apply app_inv_head in H. injection H as H.
    unfold relative in H.
    apply append_cancel_l in H.
    apply append_cancel_r in H.
    apply append_cancel_l in H. now apply str_of_int_injective. }
  split; [apply str_of_int_read_back|].
  split.
  - exact (V GET "/task/" (given params []) (given ct application_json)).
  - exact (V DELETE "/host/" [] (given ct application_json)).
Qed.

Lemma identifiers_give_different_requests_witness :
  option_map Z.of_int (NilZero.int_of_string (str_of_int (-12))) = Some (-12)
  /\ str_of_int (-12) = "-12".
Proof.
  destruct (identifiers_give_different_requests
              (Scenario.always (Scenario.tasks [])) Scenario.first_header_is
              (Some [("a", "b")]) None
              [] Scenario.the_client (Scenario.entered Scenario.vm) (-12) 7)
    as (H & _).
  - exists 0%nat. repeat split; reflexivity.
  - split; [exact H | reflexivity].
Defined.

(** ** Decoding the body *)



(** ** The order of the parameters *)

Lemma join_append (sep : string) (a b : list string) :
  a <> [] -> b <> [] ->
  Urllib.join sep (a ++ b) = Urllib.join sep a ++ sep ++ Urllib.join sep b.
Proof.
  intros Ha Hb. induction a as [|x a IH]; [contradiction|].
  destruct a as [|y a].
  - destruct b as [|z b]; [contradiction|]. reflexivity.
  - change (Urllib.join sep ((x :: y :: a) ++ b))
      with (x ++ sep ++ Urllib.join sep ((y :: a) ++ b)).
    rewrite IH by discriminate.
    change (Urllib.join sep (x :: y :: a)) with (x ++ sep ++ Urllib.join sep (y :: a)).
    now rewrite !append_assoc.
Qed.

(** X18. The query string follows the order of the mapping: the query
    string of two mappings put one after the other, neither of them
    empty, is the query string of the first, an [&], and the query string
    of the second, for every set of safe characters. *)
Theorem query_string_follows_the_mapping (a b : list (string * string)) (safe : string) :
  a <> [] -> b <> [] ->
  Urllib.urlencode (a ++ b) safe
  = Urllib.urlencode a safe ++ "&" ++ Urllib.urlencode b safe.
Proof.
  intros Ha Hb. unfold Urllib.urlencode. rewrite map_app.
  apply join_append.
  - destruct a; [contradiction | discriminate].
  - destruct b; [contradiction | discriminate].
Qed.

Lemma query_string_follows_the_mapping_witness :
  Urllib.urlencode [("where", "state+EQ+'active'"); ("orderby", "id desc")] "+'()"
  = "where=state+EQ+'active'" ++ "&" ++ "orderby=id+desc".
Proof.
  change [("where", "state+EQ+'active'"); ("orderby", "id desc")]
    with ([("where", "state+EQ+'active'")] ++ [("orderby", "id desc")])%list.
  rewrite (query_string_follows_the_mapping
             [("where", "state+EQ+'active'")] [("orderby", "id desc")] "+'()");
    [reflexivity | discriminate | discriminate].
Defined.

(** ** Calls and the scope of the session, together *)

(** X19. The exit of [get_token] does not leak the connection.  When
    [get_token] with [attempts = k + 1] is the block of [async with] and
    the backend answers each token request with a status of 400 or more,
    the statement ends with [SystemExit(1)] after [k + 1] delays of one
    second, and the client of this entry has been closed, once, on the
    way out. *)
Theorem exhausted_token_call_still_closes_the_client
    (backend : list Request -> Request -> answer)
    (expected_content_type : headers -> string -> bool)
    (email password : string) (kw : kwargs) (st : State) (k : nat) :
  let rq := token_request (new_client (self st)) (snd (aenter st)) email password kw in
  (forall i, (i <= k)%nat ->
     exists r, backend (sent (world st) ++ repeat rq i)%list rq = Answer r
               /\ 400 <= status r) ->
  exists r st',
    backend (sent (world st) ++ repeat rq k)%list rq = Answer r
    /\ async_with_block backend expected_content_type (S k)
         [OpGetToken email password (Some (Z.of_nat (S k))) kw] st
       = Some (Raise (exhausted_exit rq r), st')
    /\ nth_error (clients (world st')) (List.length (clients (world st)))
       = Some (closed_once (self st))
    /\ _session (self st') = IsNone
    /\ sent (world st') = (sent (world st) ++ repeat rq (S k))%list
    /\ sleeps (world st') = (sleeps (world st) ++ repeat 1 (S k))%list.
Proof.
  intros rq Hb.
  destruct (aenter_opens st) as (He & Ho & Hs & Hc).
  set (c := new_client (self st)) in *.
  destruct (token_loop_failures backend expected_content_type email password kw c
              k (Z.of_nat (S k)) (snd (aenter st)) Ho ltac:(lia)) as (st1 & A1 & R1).
  { intros i Hi. apply Hb. lia. }
  fold rq in A1.
  pose proof (after_open c _ _ _ _ _ A1 Ho) as Ho1.
  pose proof (after_token_request c _ _ _ _ _ email password kw A1) as Q1.
  destruct (Hb k (Nat.le_refl k)) as (r & B & Hr).
  destruct (pass_exhausted backend expected_content_type email password kw c st1 r)
    as (st2 & P & A2); try assumption.
  { rewrite Q1. destruct A1 as (_ & _ & E & _). rewrite E. exact B. }
  rewrite Q1 in A2, P. fold rq in A2, P.
  pose proof (after_trans _ _ _ _ _ _ _ _ _ A1 A2) as A.
  rewrite <- !repeat_cons in A.
  assert (H : get_token backend expected_content_type (S k) email password
                (Some (Z.of_nat (S k))) kw (snd (aenter st))
              = Some (Raise (exhausted_exit rq r), st2)).
  { unfold get_token.
    replace (S k) with (k + 1)%nat at 1 by lia.
    rewrite R1.
    replace (Z.of_nat (S k) - Z.of_nat k) with 1 by lia.
    rewrite token_loop_run_pass, P. apply token_loop_run_finished. }
  destruct A as (As & Ac & Aq & Ad & _).
  assert (E2 : _session (self st2) = Client (List.length (clients (world st))))
    by (now rewrite As).
  exists r. eexists. split; [exact B|]. split.
  - unfold async_with_block. rewrite He. cbn [run_block run_op].
    rewrite H.
    rewrite (aexit_state st2 _ E2). reflexivity.
  - cbn [self world clients sent sleeps update_client set_session _session].
    rewrite Ac, Hc, update_nth_last.
    split; [apply nth_error_last|].
    split; [reflexivity|].
    split; [exact Aq | exact Ad].
Qed.

Lemma exhausted_token_call_still_closes_the_client_witness :
  exists st',
    async_with_block (Scenario.always Scenario.unavailable) Scenario.first_header_is 2
      [OpGetToken "admin@example.com" "secret" (Some 2) []]
      (Scenario.fresh Scenario.auth)
    = Some (Raise (exhausted_exit
                    (token_request Scenario.the_client (Scenario.entered Scenario.auth)
                       "admin@example.com" "secret" [])
                    Scenario.unavailable), st')
    /\ nth_error (clients (world st')) 0 = Some (closed_once Scenario.auth)
    /\ sleeps (world st') = [1; 1].
Proof.
  destruct (exhausted_token_call_still_closes_the_client
              (Scenario.always Scenario.unavailable) Scenario.first_header_is
              "admin@example.com" "secret" [] (Scenario.fresh Scenario.auth) 1)
    as (r & st' & B & H & C & _ & _ & D).
  - intros i _. exists Scenario.unavailable. split; [|simpl; lia].
    unfold Scenario.always, Scenario.scripted.
    now destruct (List.length _) as [|[|n]].
  - injection B as B. subst r.
    exists st'. split; [exact H|]. split; [exact C|]. rewrite D. reflexivity.
Defined.

(** X20. A call that fails does not spoil the session.  On an open
    session, after any call of the library that ends, by returning or by
    raising, the session still holds the same open client, and the next
    verb sends its request through it. *)
Theorem session_stays_open_after_any_call
    (backend : list Request -> Request -> answer)
    (expected_content_type : headers -> string -> bool)
    (fuel : nat) (o : op) (c : ClientSession) (st : State)
    (r : result pyval) (st' : State) :
  open_with c st ->
  run_op backend expected_content_type fuel o st = Some (r, st') ->
  open_with c st'
  /\ forall m url params ct kw,
       snd (verb backend expected_content_type m url params ct kw st')
       = logged (request_of m c st' (relative m url params) kw) st'.
Proof.
  intros Ho H.
  destruct (frame_run_op backend expected_content_type fuel o st r st' H)
    as [Fs Fc _].
  assert (Ho' : open_with c st').
  { destruct Ho as (id & H1 & H2 & H3). exists id. now rewrite Fs, Fc. }
  split; [exact Ho'|].
  intros m url params ct kw. now apply verb_sends.
Qed.

Lemma session_stays_open_after_any_call_witness :
  exists st' rq,
    snd (verb (Scenario.always (Scenario.not_found EmptyBody)) Scenario.first_header_is
           GET "/host" [] application_json []
           (snd (verb (Scenario.always (Scenario.not_found EmptyBody))
                   Scenario.first_header_is DELETE "/host/7" [] application_json []
                   (Scenario.entered Scenario.vm))))
    = logged rq st'
    /\ rq_url rq = "/vm/v3/host".
Proof.
  destruct (session_stays_open_after_any_call
              (Scenario.always (Scenario.not_found EmptyBody)) Scenario.first_header_is
              0 (OpDelete "/host/7" application_json [])
              Scenario.the_client (Scenario.entered Scenario.vm)
              (fst (verb (Scenario.always (Scenario.not_found EmptyBody))
                      Scenario.first_header_is DELETE "/host/7" [] application_json []
                      (Scenario.entered Scenario.vm)))
              (snd (verb (Scenario.always (Scenario.not_found EmptyBody))
                      Scenario.first_header_is DELETE "/host/7" [] application_json []
                      (Scenario.entered Scenario.vm))))
    as [_ H].
  - exists 0%nat. repeat split; reflexivity.
  - reflexivity.
  - eexists. eexists. split; [apply (H GET "/host" [] application_json [])|].
    reflexivity.
Defined.
